(** * Shallow embedding of frappe/model/workflow.py

    The workflow engine of Frappe: transition resolution, the approval
    check, the transition executor [apply_workflow] and the bulk executor
    [bulk_workflow_approval].  Python's optional strings ([None] or [''])
    are both falsy; they are modelled as the empty string. *)

From Stdlib Require Import String Ascii List ZArith Bool Lia.
From stdpp Require Import base gmap strings.
Import ListNotations.
Open Scope string_scope.

(** Python truthiness of a string. *)
Definition truthy (s : string) : bool := negb (String.eqb s "").

(** Membership of a string in a literal Python list ([x in [...]]). *)
Definition in_list (x : string) (l : list string) : bool :=
  existsb (String.eqb x) l.

(** ** Data model *)

(** A row of the child table [Workflow Document State]. [doc_status]
    holds [cint(doc_status)]. An empty [update_field] means none. *)
Record WState := mkWState {
  st_state : string;
  doc_status : Z;
  update_field : string;
  update_value : string
}.

(** A row of [Workflow Transition]. [state] is the source state. *)
Record Transition := mkTransition {
  t_state : string;
  t_action : string;
  t_next_state : string;
  t_condition : string;
  t_allow_self_approval : bool;
  t_multi_user_action_mode : string
}.

Record Workflow := mkWorkflow {
  workflow_state_field : string;
  states : list WState;
  transitions : list Transition
}.

(** The document. [fields] is the field dictionary read by [doc.get];
    [workflow_action] and [workflow_comment] are the transient attributes
    set by [apply_workflow]. *)
Record Doc := mkDoc {
  doctype : string;
  name : string;
  owner : string;
  docstatus : Z;
  is_new : bool;
  fields : gmap string string;
  workflow_action : string;
  workflow_comment : string
}.

Definition doc_get (d : Doc) (f : string) : string :=
  match fields d !! f with Some v => v | None => "" end.

Definition doc_set (d : Doc) (f v : string) : Doc :=
  {| doctype := doctype d; name := name d; owner := owner d;
     docstatus := docstatus d; is_new := is_new d;
     fields := <[f := v]> (fields d);
     workflow_action := workflow_action d;
     workflow_comment := workflow_comment d |}.

Definition set_workflow_action (d : Doc) (a c : string) : Doc :=
  {| doctype := doctype d; name := name d; owner := owner d;
     docstatus := docstatus d; is_new := is_new d; fields := fields d;
     workflow_action := a; workflow_comment := c |}.

Definition set_docstatus (d : Doc) (s : Z) : Doc :=
  {| doctype := doctype d; name := name d; owner := owner d;
     docstatus := s; is_new := is_new d; fields := fields d;
     workflow_action := workflow_action d;
     workflow_comment := workflow_comment d |}.

(** A [Workflow Action] record of the action ledger. *)
Record ActionRecord := mkAction {
  ar_reference_doctype : string;
  ar_reference_name : string;
  ar_workflow_state : string;
  ar_user : string;
  ar_status : string;
  ar_action_source : string;
  ar_previous_user : string
}.

Inductive LifecycleOp := OpSave | OpSubmit | OpCancel.

Inductive Err :=
| NoWorkflowAssigned
| WorkflowStateError
| WorkflowTransitionError
| SelfApprovalNotAllowed
| IllegalLifecycleTransition
| PermissionError
| DoesNotExistError
| AttributeError
| IndexError
| LifecycleFailed (op : LifecycleOp)
| ConditionEvaluationError.

(** The mutable world seen by [apply_workflow]: the document object being
    worked on (mutated in place), the action ledger, the lifecycle
    operations invoked on the document, and the audit comments added. *)
Record World := mkWorld {
  w_doc : Doc;
  w_actions : list ActionRecord;
  w_lifecycle : list LifecycleOp;
  w_comments : list string
}.

(** ** A state and exception monad

    A raised exception keeps the world as it was at the [raise]: Python
    does not undo in-memory mutation of the document. *)
Inductive Outcome (A : Type) := Ok (a : A) | Raised (e : Err).
Arguments Ok {A} a.
Arguments Raised {A} e.

Definition M (A : Type) := World -> Outcome A * World.

Definition ret {A} (a : A) : M A := fun w => (Ok a, w).
Definition bind {A B} (m : M A) (k : A -> M B) : M B :=
  fun w => match m w with
           | (Ok a, w') => k a w'
           | (Raised e, w') => (Raised e, w')
           end.
Definition raise {A} (e : Err) : M A := fun w => (Raised e, w).
Definition get_world : M World := fun w => (Ok w, w).
Definition put_world (w : World) : M unit := fun _ => (Ok tt, w).
Definition modify (f : World -> World) : M unit := fun w => (Ok tt, f w).

Notation "'let!' x := m 'in' k" := (bind m (fun x => k))
  (at level 200, x name, m at level 100, k at level 200).
Notation "'do!' m 'in' k" := (bind m (fun _ => k))
  (at level 200, m at level 100, k at level 200).

Definition with_doc (w : World) (d : Doc) : World :=
  {| w_doc := d; w_actions := w_actions w; w_lifecycle := w_lifecycle w;
     w_comments := w_comments w |}.

Definition get_doc_m : M Doc := fun w => (Ok (w_doc w), w).
Definition put_doc (d : Doc) : M unit := modify (fun w => with_doc w d).

(** [doc.add_comment('Workflow', text)] *)
Definition add_comment (text : string) : M unit :=
  modify (fun w => {| w_doc := w_doc w; w_actions := w_actions w;
                      w_lifecycle := w_lifecycle w;
                      w_comments := w_comments w ++ [text] |}).

Section Workflow.

(** External collaborators: the sandboxed [frappe.safe_eval] of a
    non-empty condition, the read-permission check of the session user,
    the workflow resolver [get_workflow] (it reads assignment rules and
    caches), [frappe.get_doc('Workflow Transition', name)], and whether a
    lifecycle operation of the document store succeeds. *)
Variable safe_eval : string -> Doc -> bool.
Variable has_permission : Doc -> bool.
Variable get_workflow : Doc -> option Workflow.
Variable get_transition_doc : string -> option Transition.
Variable lifecycle_ok : LifecycleOp -> Doc -> bool.

(** [evaluate_condition] *)
Definition evaluate_condition (condition : string) (doc : Doc) : bool :=
  if truthy condition then safe_eval condition doc else true.

(** The loop of [get_transitions]: keep the transitions leaving
    [current_state] whose condition holds. *)
Fixpoint collect_transitions (current_state : string) (doc : Doc)
    (ts : list Transition) : list Transition :=
  match ts with
  | [] => []
  | t :: rest =>
      if String.eqb (t_state t) current_state then
        if negb (evaluate_condition (t_condition t) doc)
        then collect_transitions current_state doc rest
        else t :: collect_transitions current_state doc rest
      else collect_transitions current_state doc rest
  end.

(** [get_transitions(doc, workflow=None, raise_exception=False)]. It does
    not touch the world; it reads the document only. Both branches of the
    empty-state test raise [WorkflowStateError]. A missing workflow makes
    [workflow.workflow_state_field] fail with an [AttributeError]. *)
Definition get_transitions (doc : Doc) (workflow : option Workflow)
    (raise_exception : bool) : Outcome (list Transition) :=
  if is_new doc then Ok []
  else if negb (has_permission doc) then Raised PermissionError
  else
    match (match workflow with Some w => Some w | None => get_workflow doc end) with
    | None => Raised AttributeError
    | Some wf =>
        let current_state := doc_get doc (workflow_state_field wf) in
        if negb (truthy current_state) then
          (if raise_exception then Raised WorkflowStateError
           else Raised WorkflowStateError)
        else Ok (collect_transitions current_state doc (transitions wf))
    end.

(** [has_approval_access(user, doc, transition)] *)
Definition has_approval_access (user : string) (doc : Doc) (t : Transition) : bool :=
  String.eqb user "Administrator" || t_allow_self_approval t
  || negb (String.eqb user (owner doc)).

(** ** Action ledger *)

(** [other_user_open_action_count(doc, state, user)]: the [Workflow
    Action] rows of the document at [state], not [Completed], belonging to
    another user. [apply_workflow] passes the session user, so the
    [user if user else frappe.session.user] fallback is the identity. *)
Definition other_user_open_action_count (ledger : list ActionRecord) (doc : Doc)
    (state user : string) : nat :=
  length (List.filter (fun a =>
    negb (String.eqb (ar_status a) "Completed")
    && String.eqb (ar_workflow_state a) state
    && negb (String.eqb (ar_user a) user)
    && String.eqb (ar_reference_doctype a) (doctype doc)
    && String.eqb (ar_reference_name a) (name doc)) ledger).

(** Modelled from the spec: [update_completed_workflow_actions] of
    frappe/workflow/doctype/workflow_action (not part of this source),
    the ledger's [completeActions]: the acting user's Open actions for
    this document are marked Completed. *)
Definition complete_action (doc : Doc) (user : string) (a : ActionRecord) : ActionRecord :=
  if String.eqb (ar_reference_doctype a) (doctype doc)
     && String.eqb (ar_reference_name a) (name doc)
     && String.eqb (ar_user a) user && String.eqb (ar_status a) "Open"
  then {| ar_reference_doctype := ar_reference_doctype a;
          ar_reference_name := ar_reference_name a;
          ar_workflow_state := ar_workflow_state a; ar_user := ar_user a;
          ar_status := "Completed"; ar_action_source := ar_action_source a;
          ar_previous_user := ar_previous_user a |}
  else a.

Definition update_completed_workflow_actions (user action : string) : M unit :=
  modify (fun w => {| w_doc := w_doc w;
                      w_actions := map (complete_action (w_doc w) user) (w_actions w);
                      w_lifecycle := w_lifecycle w; w_comments := w_comments w |}).

(** Modelled from the spec: [create_workflow_actions] of
    frappe/workflow/doctype/workflow_action (not part of this source),
    the ledger's [createActions]: a new Open action for the target user at
    the document's current state, with the source action and the user it
    comes from. *)
Definition create_workflow_actions (wf : Workflow) (target_user : string)
    (possible_actions : list string) (source_action from_user comment : string) : M unit :=
  modify (fun w => {| w_doc := w_doc w;
                      w_actions := w_actions w ++
                        [{| ar_reference_doctype := doctype (w_doc w);
                            ar_reference_name := name (w_doc w);
                            ar_workflow_state := doc_get (w_doc w) (workflow_state_field wf);
                            ar_user := target_user; ar_status := "Open";
                            ar_action_source := source_action;
                            ar_previous_user := from_user |}];
                      w_lifecycle := w_lifecycle w; w_comments := w_comments w |}).

(** ** The transition executor [apply_workflow] *)

(** The loop [for t in transitions: ...] of [apply_workflow]: it has no
    [break], every later match overwrites [transition]. *)
Definition find_transition (doc : Doc) (action : string) (ts : list Transition)
    : option Transition :=
  fold_left (fun acc t =>
    if negb (evaluate_condition (t_condition t) doc) then acc
    else if String.eqb (t_action t) action then Some t else acc) ts None.

(** [frappe._dict({'allow_self_approval': 1, 'next_state': ...,
    'multi_user_action_mode': 'Any'})]; its absent keys read as [None]. *)
Definition start_transition (next_state : string) : Transition :=
  {| t_state := ""; t_action := ""; t_next_state := next_state; t_condition := "";
     t_allow_self_approval := true; t_multi_user_action_mode := "Any" |}.

(** Lines 165-182: resolving the effective transition. *)
Definition resolve_transition (wf : Workflow) (doc : Doc) (action transition_name : string)
    : M Transition :=
  let! transition :=
    (if truthy transition_name then
       match get_transition_doc transition_name with
       | Some t => ret (Some t)
       | None => raise DoesNotExistError
       end
     else if String.eqb action "Start" then
       match transitions wf with
       | t0 :: _ => ret (Some (start_transition (t_state t0)))
       | [] => raise IndexError
       end
     else
       match get_transitions doc (Some wf) false with
       | Ok ts => ret (find_transition doc action ts)
       | Raised e => raise e
       end) in
  match transition with
  | None => raise WorkflowTransitionError
  | Some t => ret t
  end.

(** The if-chain of lines 218-227 on [(doc.docstatus, new_docstatus)]. *)
Definition lifecycle_table (current new_docstatus : Z) : option LifecycleOp :=
  if (current =? 0)%Z && (new_docstatus =? 0)%Z then Some OpSave
  else if (current =? 0)%Z && (new_docstatus =? 1)%Z then Some OpSubmit
  else if (current =? 1)%Z && (new_docstatus =? 1)%Z then Some OpSave
  else if (current =? 1)%Z && (new_docstatus =? 2)%Z then Some OpCancel
  else None.

(** [doc.save()], [doc.submit()], [doc.cancel()] of the document store:
    on success the operation is recorded and [submit]/[cancel] set the
    docstatus; on failure the store's exception propagates. *)
Definition run_lifecycle (op : LifecycleOp) : M unit :=
  fun w =>
    if lifecycle_ok op (w_doc w) then
      let d := w_doc w in
      let d' := match op with
                | OpSave => d
                | OpSubmit => set_docstatus d 1
                | OpCancel => set_docstatus d 2
                end in
      (Ok tt, {| w_doc := d'; w_actions := w_actions w;
                 w_lifecycle := w_lifecycle w ++ [op]; w_comments := w_comments w |})
    else (Raised (LifecycleFailed op), w).

(** Lines 204-207: the state written, [workflow.states[0].state] for a
    rejection; [None] is the [IndexError] of an empty state list. *)
Definition next_state_name (wf : Workflow) (t : Transition) (action : string)
    : option string :=
  if String.eqb action "Reject" then
    match states wf with
    | s0 :: _ => Some (st_state s0)
    | [] => None
    end
  else Some (t_next_state t).

(** Lines 210-211: [[d for d in workflow.states if d.state == ...][0]]. *)
Definition find_state (wf : Workflow) (next : string) : option WState :=
  match List.filter (fun d => String.eqb (st_state d) next) (states wf) with
  | s :: _ => Some s
  | [] => None
  end.

(** Lines 200-229: the branch that advances the state. Line 205 writes
    the first state into [transition.next_state]; lines 207 and 211 read
    it back, and the transition object is not read again by this call, so
    the model carries that value as [next] (see [next_state_name]) rather
    than updating the transition. The comment is a string: a missing
    comment ([None]) is represented by "", which Python would store as
    [None] and render as "None" in the audit comment; no property below
    depends on the comment's text. *)
Definition advance_state (wf : Workflow) (t : Transition) (action comment : string)
    : M unit :=
  let! doc := get_doc_m in
  do! put_doc (set_workflow_action doc action comment) in
  match next_state_name wf t action with
  | None => raise IndexError
  | Some next =>
    let! doc := get_doc_m in
    do! put_doc (doc_set doc (workflow_state_field wf) next) in
    match find_state wf next with
    | None => raise IndexError
    | Some next_state =>
      do! (if truthy (update_field next_state) then
             let! doc := get_doc_m in
             put_doc (doc_set doc (update_field next_state) (update_value next_state))
           else ret tt) in
      let! doc := get_doc_m in
      do! match lifecycle_table (docstatus doc) (doc_status next_state) with
          | Some op => run_lifecycle op
          | None => raise IllegalLifecycleTransition
          end in
      add_comment (st_state next_state ++ " " ++ comment)
    end
  end.

(** Lines 191-199: the branch that does not advance the state. *)
Definition partial_action (wf : Workflow) (user action previous_user : string)
    (possible_actions : list string) (comment : string) (is_pre_check_action : bool)
    : M unit :=
  do! update_completed_workflow_actions user action in
  do! add_comment ((if is_pre_check_action then "Pre-check" else "Multi User Parallel Approval")
                   ++ " action, " ++ action ++ " by " ++ user ++ " with comment " ++ comment) in
  if is_pre_check_action && truthy previous_user then
    create_workflow_actions wf previous_user possible_actions "" user comment
  else ret tt.

(** [apply_workflow(doc, action, transition_name, possible_actions,
    next_user, action_source, previous_user, comment)] run by the session
    user [user], on the document held in the world. *)
Definition apply_workflow (action transition_name : string) (possible_actions : list string)
    (next_user action_source previous_user comment user : string) : M Doc :=
  let! doc := get_doc_m in
  match get_workflow doc with
  | None => raise NoWorkflowAssigned
  | Some wf =>
    if in_list action ["Forward"; "Add Additional Check"] then
      do! update_completed_workflow_actions user action in
      do! create_workflow_actions wf next_user possible_actions action user comment in
      do! add_comment ((if String.eqb action "Forward" then "Forwarded"
                        else "Requested Additional Check")
                       ++ " by " ++ user ++ " to " ++ next_user) in
      get_doc_m
    else
      let! t := resolve_transition wf doc action transition_name in
      let! doc := get_doc_m in
      if negb (has_approval_access user doc t) then raise SelfApprovalNotAllowed
      else
        let is_pre_check_action :=
          truthy action_source && in_list action_source ["Pre-Check"; "Add Additional Check"] in
        let! w := get_world in
        if (String.eqb (t_multi_user_action_mode t) "All"
            && Nat.ltb 0 (other_user_open_action_count (w_actions w) doc (t_state t) user))
           || is_pre_check_action
        then do! partial_action wf user action previous_user possible_actions comment
                   is_pre_check_action in
             get_doc_m
        else do! advance_state wf t action comment in
             get_doc_m
  end.

End Workflow.

(** ** Conditions whose evaluation fails

    [frappe.safe_eval] raises on a condition it cannot evaluate, and
    nothing in [evaluate_condition] or in the loop of [get_transitions]
    catches it. Here [try_safe_eval c d = None] is that raise, reported as
    [ConditionEvaluationError]. The model above is the instance where
    evaluation never fails (lemma [get_transitions_r_total]). *)
Section FallibleConditions.

Variable try_safe_eval : string -> Doc -> option bool.
Variable has_permission : Doc -> bool.
Variable get_workflow : Doc -> option Workflow.

(** [evaluate_condition] *)
Definition evaluate_condition_r (condition : string) (doc : Doc) : Outcome bool :=
  if truthy condition then
    match try_safe_eval condition doc with
    | Some b => Ok b
    | None => Raised ConditionEvaluationError
    end
  else Ok true.

(** The loop of [get_transitions], in order: a transition's condition is
    evaluated before the later transitions are looked at. *)
Fixpoint collect_transitions_r (current_state : string) (doc : Doc)
    (ts : list Transition) : Outcome (list Transition) :=
  match ts with
  | [] => Ok []
  | t :: rest =>
      if String.eqb (t_state t) current_state then
        match evaluate_condition_r (t_condition t) doc with
        | Raised e => Raised e
        | Ok b =>
            match collect_transitions_r current_state doc rest with
            | Raised e => Raised e
            | Ok l => Ok (if b then t :: l else l)
            end
        end
      else collect_transitions_r current_state doc rest
  end.

(** [get_transitions(doc, workflow=None, raise_exception=False)]. *)
Definition get_transitions_r (doc : Doc) (workflow : option Workflow)
    (raise_exception : bool) : Outcome (list Transition) :=
  if is_new doc then Ok []
  else if negb (has_permission doc) then Raised PermissionError
  else
    match (match workflow with Some w => Some w | None => get_workflow doc end) with
    | None => Raised AttributeError
    | Some wf =>
        let current_state := doc_get doc (workflow_state_field wf) in
        if negb (truthy current_state) then
          (if raise_exception then Raised WorkflowStateError
           else Raised WorkflowStateError)
        else collect_transitions_r current_state doc (transitions wf)
    end.

End FallibleConditions.

(** ** The bulk executor [bulk_workflow_approval] *)

(** An entry of [frappe.message_log]: its text and whether it was raised
    as an exception ([frappe.throw]) or only shown ([frappe.msgprint]). *)
Record Message := mkMessage {
  m_message : string;
  m_raise_exception : bool
}.

(** A Python exception: its class name and [e.args]. *)
Record Exn := mkExn {
  exn_class : string;
  exn_args : list string
}.

(** What the [try] body does for one document: the messages it adds to
    [frappe.message_log] and the exception it raises, if any. *)
Record ItemRun := mkItemRun {
  run_messages : list Message;
  run_exception : option Exn
}.

Inductive BulkEvent :=
| EvProgress (idx n : nat) (docname : string)
| EvApply (docname : string)
| EvCommit (docname : string)
| EvRollback (docname : string)
| EvLogError (docname : string).

(** The process-wide state touched by the bulk run: the message log and
    the sequence of effects (progress, apply, commit, rollback, error log). *)
Record BulkWorld := mkBulkWorld {
  message_log : list Message;
  events : list BulkEvent
}.

(** A report entry [{"docname": ..., "message": ...}]; [None] is the
    message of a silent success. *)
Definition Entry := (string * option string)%type.

(** The loop state: the world and the two [defaultdict(list)], flattened
    to their entries in insertion order (a [defaultdict] here is truthy
    exactly when it has an entry). *)
Record BulkState := mkBulkState {
  bs_world : BulkWorld;
  failed_transactions : list Entry;
  successful_transactions : list Entry
}.

Record Report := mkReport {
  r_failed : list Entry;
  r_successful : list Entry;
  r_indicator : string
}.

(** [show_progress]: published only for batches of at least five. *)
Definition show_progress (n idx : nat) (docname : string) : list BulkEvent :=
  if Nat.leb 5 n then [EvProgress idx n docname] else [].

(** ["{0}".format(e.__class__.__name__)] and the first argument. *)
Definition exn_message (e : Exn) : string :=
  match exn_args e with
  | a :: _ => exn_class e ++ " : " ++ a
  | [] => exn_class e
  end.

(** The [finally] block when [message_dict] is still empty. *)
Definition finally_block (docname : string) (bs : BulkState) : BulkState :=
  let w := bs_world bs in
  match message_log w with
  | [] =>
      {| bs_world := w; failed_transactions := failed_transactions bs;
         successful_transactions := (successful_transactions bs ++ [(docname, None)])%list |}
  | msgs =>
      {| bs_world := {| message_log := []; events := events w |};
         failed_transactions := (failed_transactions bs ++
           map (fun m => (docname, Some (m_message m)))
               (List.filter (fun m => m_raise_exception m) msgs))%list;
         successful_transactions := (successful_transactions bs ++
           map (fun m => (docname, Some (m_message m)))
               (List.filter (fun m => negb (m_raise_exception m)) msgs))%list |}
  end.

Section Bulk.

(** The [try] body for a document name: [frappe.get_doc(doctype, docname)]
    and [apply_workflow(..., action, transition_name=transition)]. *)
Variable run_item : string -> ItemRun.

(** One iteration of the loop, for [(idx, docname)]. *)
Definition process_item (n : nat) (bs : BulkState) (idx : nat) (docname : string)
    : BulkState :=
  let w := bs_world bs in
  let r := run_item docname in
  let log1 := (message_log w ++ run_messages r)%list in
  let ev1 := (events w ++ show_progress n idx docname ++ [EvApply docname])%list in
  match run_exception r with
  | None =>
      finally_block docname
        {| bs_world := {| message_log := log1; events := (ev1 ++ [EvCommit docname])%list |};
           failed_transactions := failed_transactions bs;
           successful_transactions := successful_transactions bs |}
  | Some e =>
      let w2 := {| message_log := log1;
                   events := (ev1 ++ [EvRollback docname; EvLogError docname])%list |} in
      match log1 with
      | [] =>
          {| bs_world := w2;
             failed_transactions := (failed_transactions bs ++ [(docname, Some (exn_message e))])%list;
             successful_transactions := successful_transactions bs |}
      | _ =>
          finally_block docname
            {| bs_world := w2; failed_transactions := failed_transactions bs;
               successful_transactions := successful_transactions bs |}
      end
  end.

(** [for (idx, docname) in enumerate(docnames, 1)] *)
Fixpoint process_items (n : nat) (bs : BulkState) (idx : nat) (docnames : list string)
    : BulkState :=
  match docnames with
  | [] => bs
  | d :: rest => process_items n (process_item n bs idx d) (S idx) rest
  end.

Definition indicator (failed successful : list Entry) : string :=
  match failed, successful with
  | _ :: _, _ :: _ => "orange"
  | _ :: _, [] => "red"
  | [], _ => "green"
  end.

(** [bulk_workflow_approval(docnames, doctype, action, transition)];
    [docnames] is the decoded JSON list. The report is what
    [print_workflow_log] renders. *)
Definition bulk_workflow_approval (docnames : list string) (w0 : BulkWorld)
    : Report * BulkWorld :=
  let w := {| message_log := []; events := events w0 |} in
  let bs := process_items (length docnames)
              {| bs_world := w; failed_transactions := [];
                 successful_transactions := [] |} 1 docnames in
  ({| r_failed := failed_transactions bs;
      r_successful := successful_transactions bs;
      r_indicator := indicator (failed_transactions bs) (successful_transactions bs) |},
   bs_world bs).

End Bulk.

(** ** Other functions of workflow.py *)

(** Python exceptions of the functions below: one of [Err], the plain
    [frappe.ValidationError] of [frappe.throw(msg)] without an exception
    class, or a [KeyError] on a dictionary lookup. *)
Inductive PyErr :=
| Known (e : Err)
| WorkflowPermissionError
| ValidationError
| KeyError (key : string).

Inductive Result (A : Type) := ROk (a : A) | RErr (e : PyErr).
Arguments ROk {A} a.
Arguments RErr {A} e.

(** The [_doc_before_save] attribute of a document: absent, [None], or
    the snapshot of the previously persisted document. *)
Inductive Snapshot := NoAttr | NoneSnap | Snap (d : Doc).

(** [getattr(doc, '_doc_before_save', None)] *)
Definition snapshot_doc (s : Snapshot) : option Doc :=
  match s with Snap d => Some d | _ => None end.

Section MoreWorkflow.

Variable safe_eval : string -> Doc -> bool.
Variable has_permission : Doc -> bool.
Variable get_workflow : Doc -> option Workflow.

(** [validate_workflow(doc)] for the session user [session_user], with
    [doc_before_save] the document's [_doc_before_save] attribute: the
    outcome and the document, whose empty state field is filled in with
    the first state. *)
Definition validate_workflow (session_user : string) (doc_before_save : Snapshot)
    (doc : Doc) : Result unit * Doc :=
  match get_workflow doc with
  | None => (RErr (Known AttributeError), doc)
  | Some wf =>
    let field := workflow_state_field wf in
    let current_state :=
      match snapshot_doc doc_before_save with
      | Some b => doc_get b field
      | None => ""
      end in
    let next_state0 := doc_get doc field in
    match (if truthy next_state0 then Some (next_state0, doc)
           else match states wf with
                | s0 :: _ => Some (st_state s0, doc_set doc field (st_state s0))
                | [] => None
                end) with
    | None => (RErr (Known IndexError), doc)
    | Some (next_state, doc) =>
      match states wf with
      | [] => (RErr (Known IndexError), doc)
      | s0 :: _ =>
        let current_state := if truthy current_state then current_state else st_state s0 in
        let default_state := st_state s0 in
        if String.eqb session_user (owner doc) && String.eqb current_state default_state
        then (ROk tt, doc)
        else if String.eqb (workflow_action doc) "Reject" && String.eqb next_state default_state
        then (ROk tt, doc)
        else
          match find_state wf current_state with
          | None => (RErr ValidationError, doc)
          | Some _ =>
            if negb (String.eqb current_state next_state) then
              match doc_before_save with
              | NoAttr => (RErr (Known AttributeError), doc)
              | NoneSnap => (RErr WorkflowPermissionError, doc)
              | Snap b =>
                  match get_transitions safe_eval has_permission get_workflow b None false with
                  | Raised e => (RErr (Known e), doc)
                  | Ok ts =>
                      if existsb (fun d => String.eqb (t_next_state d) next_state) ts
                      then (ROk tt, doc)
                      else (RErr WorkflowPermissionError, doc)
                  end
              end
            else (ROk tt, doc)
          end
      end
    end
  end.

(** [action_map[action]] of [set_workflow_state_on_action]; [None] is the
    [KeyError]. The Select values '0', '1', '2' of [doc_status] are
    compared as the integers they spell. *)
Definition action_map (action : string) : option Z :=
  if String.eqb action "update_after_submit" then Some 1%Z
  else if String.eqb action "submit" then Some 1%Z
  else if String.eqb action "cancel" then Some 2%Z
  else None.

(** [set_workflow_state_on_action(doc, workflow_name, action)], with
    [get_workflow_doc] for [frappe.get_doc('Workflow', name)]. It returns
    the document, possibly with its state field set. *)
Definition set_workflow_state_on_action (get_workflow_doc : string -> option Workflow)
    (doc : Doc) (workflow_name action : string) : Result Doc :=
  match get_workflow_doc workflow_name with
  | None => RErr (Known DoesNotExistError)
  | Some wf =>
    let workflow_state_field := workflow_state_field wf in
    if existsb (fun state => bool_decide (fields doc !! workflow_state_field = Some (st_state state))
                             && Z.eqb (docstatus doc) (doc_status state)) (states wf)
    then ROk doc
    else
      match action_map action with
      | None => RErr (KeyError action)
      | Some ds =>
          match List.find (fun state => Z.eqb (doc_status state) ds) (states wf) with
          | Some state => ROk (doc_set doc workflow_state_field (st_state state))
          | None => ROk doc
          end
      end
  end.

(** A row of [Workflow Action] as [frappe.get_list] reads it: the ledger
    record and its [actions] column ("action:transition;..."). The rows
    are taken in the order [get_list] returns them. *)
Record WorkflowActionRow := mkWorkflowActionRow {
  wa : ActionRecord;
  wa_actions : string
}.

(** The fields [user], [actions], [action_source], [previous_user]. *)
Record OpenAction := mkOpenAction {
  oa_user : string;
  oa_actions : string;
  oa_action_source : string;
  oa_previous_user : string
}.

Definition open_action_of (r : WorkflowActionRow) : OpenAction :=
  {| oa_user := ar_user (wa r); oa_actions := wa_actions r;
     oa_action_source := ar_action_source (wa r);
     oa_previous_user := ar_previous_user (wa r) |}.

(** [get_open_workflow_action(doc, state, user=None)] over the rows. *)
Definition get_open_workflow_action (rows : list WorkflowActionRow) (doc : Doc)
    (state user : string) : list OpenAction :=
  if truthy user && in_list user ["Administrator"] then
    [{| oa_user := "Administrator"; oa_actions := ""; oa_action_source := "Normal";
        oa_previous_user := "" |}]
  else
    map open_action_of (List.filter (fun r =>
      negb (String.eqb (ar_status (wa r)) "Completed")
      && String.eqb (ar_workflow_state (wa r)) state
      && String.eqb (ar_reference_doctype (wa r)) (doctype doc)
      && String.eqb (ar_reference_name (wa r)) (name doc)
      && (if truthy user then String.eqb (ar_user (wa r)) user else true)) rows).

(** Python's [s.split(sep)] for a one-character separator. *)
Fixpoint py_split (sep : Ascii.ascii) (s : string) : list string :=
  match s with
  | EmptyString => [""]
  | String c rest =>
      if Ascii.eqb c sep then "" :: py_split sep rest
      else match py_split sep rest with
           | h :: t => String c h :: t
           | [] => [String c ""]
           end
  end.

(** [{'action': i.split(':')[0], 'transition': i.split(':')[1]}]; a part
    without ':' raises [IndexError]. *)
Definition parse_action (i : string) : Result (string * string) :=
  match py_split ":"%char i with
  | a :: t :: _ => ROk (a, t)
  | _ => RErr (Known IndexError)
  end.

Fixpoint parse_actions (parts : list string) : Result (list (string * string)) :=
  match parts with
  | [] => ROk []
  | p :: rest =>
      match parse_action p with
      | RErr e => RErr e
      | ROk x => match parse_actions rest with
                 | RErr e => RErr e
                 | ROk xs => ROk (x :: xs)
                 end
      end
  end.

(** [distinct=1]: each value once, at its first occurrence. *)
Fixpoint distinct (l : list string) : list string :=
  match l with
  | [] => []
  | x :: rest => x :: List.filter (fun y => negb (String.eqb x y)) (distinct rest)
  end.

(** [get_common_transition_actions(docs, doctype)] for the session user,
    with [docnames] the names of [docs]. *)
Definition get_common_transition_actions (rows : list WorkflowActionRow)
    (docnames : list string) (doctype session_user : string)
    : Result (list (string * string)) :=
  let actions := distinct (map wa_actions (List.filter (fun r =>
        String.eqb (ar_reference_doctype (wa r)) doctype
        && in_list (ar_reference_name (wa r)) docnames
        && String.eqb (ar_user (wa r)) session_user
        && String.eqb (ar_status (wa r)) "Open") rows)) in
  match actions with
  | [a] => parse_actions (py_split ";"%char a)
  | _ => ROk []
  end.

(** [get_workflow_name(doctype)] with the cache hash 'workflow': the
    returned name ([None] on a miss without active workflow) and the
    cache after the call. [active_workflow] is the database lookup. *)
Definition get_workflow_name (active_workflow : string -> option string)
    (cache : gmap string string) (doctype : string) : option string * gmap string string :=
  match cache !! doctype with
  | Some v => (Some v, cache)
  | None =>
      let workflow_name := active_workflow doctype in
      (workflow_name,
       <[doctype := match workflow_name with Some n => n | None => "" end]> cache)
  end.

(** [get_workflow_field_value(workflow_name, field)]: the cache maps
    ('workflow_' + name, field) to the stored value, [None] included,
    and [hget] answering [None] counts as a miss. *)
Definition get_workflow_field_value (db_value : string -> string -> option string)
    (cache : gmap (string * string) (option string)) (workflow_name field : string)
    : option string * gmap (string * string) (option string) :=
  match cache !! ("workflow_" ++ workflow_name, field) with
  | Some (Some v) => (Some v, cache)
  | _ =>
      let value := db_value workflow_name field in
      (value, <[("workflow_" ++ workflow_name, field) := value]> cache)
  end.




(** The loops of [can_cancel_document] on the workflow's states and
    transitions. *)
Fixpoint can_cancel_states (sts : list WState) (ts : list Transition) : bool :=
  match sts with
  | [] => true
  | state_doc :: rest =>
      if Z.eqb (doc_status state_doc) 2 then
        negb (existsb (fun t => String.eqb (t_next_state t) (st_state state_doc)) ts)
      else can_cancel_states rest ts
  end.

End MoreWorkflow.

(** ** Concrete configurations used by the witnesses and counterexamples *)

(** The workflow of the spec's example: Draft(0) -> Review(0) -> Approved(1),
    with a Cancelled(2) state that no transition reaches. *)
Definition ex_submit_for_review : Transition :=
  mkTransition "Draft" "Submit for Review" "Review" "" true "Any".
Definition ex_approve : Transition :=
  mkTransition "Review" "Approve" "Approved" "" false "All".
Definition ex_approve_back : Transition :=
  mkTransition "Review" "Approve" "Draft" "" false "Any".

Definition ex_states : list WState :=
  [mkWState "Draft" 0 "" ""; mkWState "Review" 0 "" "";
   mkWState "Approved" 1 "" ""; mkWState "Cancelled" 2 "" ""].

Definition ex_wf : Workflow :=
  mkWorkflow "workflow_state" ex_states [ex_submit_for_review; ex_approve].

(** The same workflow with two transitions labelled "Approve" out of
    "Review", both without condition. *)
Definition ex_wf_dup : Workflow :=
  mkWorkflow "workflow_state" ex_states [ex_submit_for_review; ex_approve; ex_approve_back].

Definition ex_doc (state : string) : Doc :=
  mkDoc "ToDo" "TD-0001" "owner@example.com" 0 false
        (<["workflow_state" := state]> ∅) "" "".

Definition ex_world (state : string) (ledger : list ActionRecord) : World :=
  mkWorld (ex_doc state) ledger [] [].

(** An Open action of another user on the document, at [state]. *)
Definition ex_open_action (state user : string) : ActionRecord :=
  mkAction "ToDo" "TD-0001" state user "Open" "Normal" "".

Definition ex_true_cond (_ : string) (_ : Doc) : bool := true.
Definition ex_can_read (_ : Doc) : bool := true.
Definition ex_cannot_read (_ : Doc) : bool := false.
Definition ex_get_workflow (wf : Workflow) (_ : Doc) : option Workflow := Some wf.
Definition ex_no_transition_doc (_ : string) : option Transition := None.
Definition ex_lifecycle_ok (_ : LifecycleOp) (_ : Doc) : bool := true.


(** A transition from "Review" (docstatus 0) straight to "Cancelled"
    (docstatus 2), fetched by name as [WT-CANCEL]. *)
Definition ex_cancel_from_review : Transition :=
  mkTransition "Review" "Cancel" "Cancelled" "" true "Any".

Definition ex_cancel_transition_doc (n : string) : option Transition :=
  if String.eqb n "WT-CANCEL" then Some ex_cancel_from_review else None.

(** The pairs of the legality table. *)
Definition legal_lifecycle_pairs : list (Z * Z) := [(0, 0); (0, 1); (1, 1); (1, 2)]%Z.


(** A bulk item that first shows an informational message and then fails
    through [frappe.throw]. *)
Definition ex_run_throw_after_info (_ : string) : ItemRun :=
  mkItemRun [mkMessage "Document updated" false; mkMessage "Not allowed" true]
            (Some (mkExn "ValidationError" ["Not allowed"])).

(** [c not in s]. *)
Fixpoint char_free (c : Ascii.ascii) (s : string) : bool :=
  match s with
  | EmptyString => true
  | String x rest => negb (Ascii.eqb x c) && char_free c rest
  end.

(** The [actions] column of a Workflow Action row: the pairs
    "action:transition" joined by ';'. *)
Fixpoint join_actions (l : list (string * string)) : string :=
  match l with
  | [] => ""
  | [(a, t)] => a ++ ":" ++ t
  | (a, t) :: rest => a ++ ":" ++ t ++ ";" ++ join_actions rest
  end.

(** ** Per-item view of the bulk run

    What one iteration adds when the message log is empty before it: its
    failed entries, its successful entries and its effects. *)
Definition item_failed (docname : string) (r : ItemRun) : list Entry :=
  match run_messages r with
  | [] => match run_exception r with
          | Some e => [(docname, Some (exn_message e))]
          | None => []
          end
  | msgs => map (fun m => (docname, Some (m_message m)))
                (List.filter (fun m => m_raise_exception m) msgs)
  end.

Definition item_successful (docname : string) (r : ItemRun) : list Entry :=
  match run_messages r with
  | [] => match run_exception r with
          | Some _ => []
          | None => [(docname, None)]
          end
  | msgs => map (fun m => (docname, Some (m_message m)))
                (List.filter (fun m => negb (m_raise_exception m)) msgs)
  end.

Definition item_events (n idx : nat) (docname : string) (r : ItemRun) : list BulkEvent :=
  (show_progress n idx docname ++ [EvApply docname] ++
   match run_exception r with
   | None => [EvCommit docname]
   | Some _ => [EvRollback docname; EvLogError docname]
   end)%list.

(** [f idx d0 ++ f (idx+1) d1 ++ ...] over [enumerate(docnames, idx)]. *)
Fixpoint per_item {A : Type} (f : nat -> string -> list A) (idx : nat)
    (docnames : list string) : list A :=
  match docnames with
  | [] => []
  | d :: rest => (f idx d ++ per_item f (S idx) rest)%list
  end.



(** ** Helper lemmas *)

Lemma collect_transitions_filter (safe_eval : string -> Doc -> bool)
    (cur : string) (doc : Doc) (ts : list Transition) :
  collect_transitions safe_eval cur doc ts =
  List.filter (fun t => String.eqb (t_state t) cur
                   && evaluate_condition safe_eval (t_condition t) doc) ts.
Proof.
  induction ts as [|t ts IH]; simpl; [reflexivity|].
  destruct (String.eqb (t_state t) cur); simpl; [|exact IH].
  destruct (evaluate_condition safe_eval (t_condition t) doc); simpl;
    rewrite IH; reflexivity.
Qed.

Lemma hd_error_app_single {A} (l : list A) (a : A) :
  hd_error (l ++ [a]) = match hd_error l with Some x => Some x | None => Some a end.
Proof. destruct l; reflexivity. Qed.

Lemma find_transition_fold (safe_eval : string -> Doc -> bool) (doc : Doc)
    (action : string) (ts : list Transition) (acc : option Transition) :
  fold_left (fun acc t =>
    if negb (evaluate_condition safe_eval (t_condition t) doc) then acc
    else if String.eqb (t_action t) action then Some t else acc) ts acc =
  match hd_error (rev (List.filter (fun t => evaluate_condition safe_eval (t_condition t) doc
                                       && String.eqb (t_action t) action) ts)) with
  | Some t => Some t
  | None => acc
  end.
Proof.
  revert acc; induction ts as [|t ts IH]; intros acc; simpl; [reflexivity|].
  rewrite IH.
  destruct (evaluate_condition safe_eval (t_condition t) doc) eqn:Ec; simpl.
  - destruct (String.eqb (t_action t) action) eqn:Ea; simpl.
    + rewrite hd_error_app_single.
      destruct (hd_error _); reflexivity.
    + reflexivity.
  - reflexivity.
Qed.

Lemma find_transition_last (safe_eval : string -> Doc -> bool) (doc : Doc)
    (action : string) (ts : list Transition) :
  find_transition safe_eval doc action ts =
  hd_error (rev (List.filter (fun t => evaluate_condition safe_eval (t_condition t) doc
                                  && String.eqb (t_action t) action) ts)).
Proof.
  unfold find_transition; rewrite find_transition_fold.
  destruct (hd_error _); reflexivity.
Qed.

Lemma evaluate_condition_r_raised (try_safe_eval : string -> Doc -> option bool)
    (c : string) (d : Doc) (e : Err) :
  evaluate_condition_r try_safe_eval c d = Raised e -> e = ConditionEvaluationError.
Proof.
  unfold evaluate_condition_r; destruct (truthy c); [|discriminate].
  destruct (try_safe_eval c d); congruence.
Qed.

Lemma collect_transitions_r_ok (try_safe_eval : string -> Doc -> option bool)
    (cur : string) (doc : Doc) (ts : list Transition) :
  (forall t, In t ts -> t_state t = cur ->
     exists b, evaluate_condition_r try_safe_eval (t_condition t) doc = Ok b) ->
  collect_transitions_r try_safe_eval cur doc ts =
  Ok (List.filter (fun t => String.eqb (t_state t) cur
                            && match evaluate_condition_r try_safe_eval (t_condition t) doc with
                               | Ok b => b
                               | Raised _ => false
                               end) ts).
Proof.
  induction ts as [|t ts IH]; intros Hev; simpl; [reflexivity|].
  rewrite IH by (intros t' Hin; apply Hev; right; exact Hin).
  destruct (String.eqb_spec (t_state t) cur) as [E|E]; simpl; [|reflexivity].
  destruct (Hev t (or_introl eq_refl) E) as [b Hb]; rewrite Hb.
  destruct b; reflexivity.
Qed.

Lemma collect_transitions_r_error (try_safe_eval : string -> Doc -> option bool)
    (cur : string) (doc : Doc) (ts : list Transition) (t : Transition) :
  In t ts -> t_state t = cur ->
  evaluate_condition_r try_safe_eval (t_condition t) doc = Raised ConditionEvaluationError ->
  collect_transitions_r try_safe_eval cur doc ts = Raised ConditionEvaluationError.
Proof.
  induction ts as [|t' ts IH]; simpl; [contradiction|]; intros Hin Hs He.
  destruct Hin as [<-|Hin].
  - rewrite Hs, String.eqb_refl, He; reflexivity.
  - rewrite (IH Hin Hs He).
    destruct (String.eqb (t_state t') cur); [|reflexivity].
    destruct (evaluate_condition_r try_safe_eval (t_condition t') doc) as [b|e] eqn:E;
      [reflexivity|].
    rewrite (evaluate_condition_r_raised _ _ _ _ E); reflexivity.
Qed.

(** The model with a total [safe_eval] is the instance of the fallible one
    where evaluation never fails. *)
Lemma get_transitions_r_total (safe_eval : string -> Doc -> bool)
    (has_permission : Doc -> bool) (get_workflow : Doc -> option Workflow)
    (doc : Doc) (workflow : option Workflow) (raise_exception : bool) :
  get_transitions_r (fun c d => Some (safe_eval c d)) has_permission get_workflow doc workflow
    raise_exception
  = get_transitions safe_eval has_permission get_workflow doc workflow raise_exception.
Proof.
  unfold get_transitions_r, get_transitions.
  destruct (is_new doc), (has_permission doc); simpl; try reflexivity.
  destruct (match workflow with Some w => Some w | None => get_workflow doc end) as [wf|];
    [|reflexivity].
  destruct (truthy (doc_get doc (workflow_state_field wf))); simpl; [|reflexivity].
  generalize (transitions wf); intros ts; induction ts as [|t ts IH]; simpl; [reflexivity|].
  rewrite IH; unfold evaluate_condition_r, evaluate_condition.
  destruct (String.eqb (t_state t) _); [|reflexivity].
  destruct (truthy (t_condition t)); [destruct (safe_eval (t_condition t) doc)|]; reflexivity.
Qed.

(** ** Claims *)

(** C6: [has_approval_access] holds exactly when the user is the
    administrator, or the transition allows self-approval, or the user is
    not the owner; it fails exactly for a non-administrator owner on a
    transition without self-approval. *)
Theorem has_approval_access_iff (user : string) (doc : Doc) (t : Transition) :
  (has_approval_access user doc t = true <->
   user = "Administrator" \/ t_allow_self_approval t = true \/ user <> owner doc) /\
  (has_approval_access user doc t = false <->
   user <> "Administrator" /\ t_allow_self_approval t = false /\ user = owner doc).
Proof.
  unfold has_approval_access.
  destruct (String.eqb_spec user "Administrator") as [Ha|Ha];
  destruct (t_allow_self_approval t);
  destruct (String.eqb_spec user (owner doc)) as [Ho|Ho]; simpl;
  split; split; intros H; try tauto; try discriminate; try reflexivity;
  destruct H as [H|[H|H]]; congruence.
Qed.

(** C9: for a new document [get_transitions] returns the empty list,
    whatever the workflow, the permission check, the evaluator and the
    document's fields: none of them is consulted. *)
Theorem get_transitions_new_doc (safe_eval : string -> Doc -> bool)
    (has_permission : Doc -> bool) (get_workflow : Doc -> option Workflow)
    (doc : Doc) (workflow : option Workflow) (raise_exception : bool) :
  is_new doc = true ->
  get_transitions safe_eval has_permission get_workflow doc workflow raise_exception = Ok [].
Proof. intros Hnew; unfold get_transitions; rewrite Hnew; reflexivity. Qed.

Lemma get_transitions_new_doc_witness :
  is_new (mkDoc "ToDo" "new-todo-1" "owner@example.com" 0 true ∅ "" "") = true /\
  get_transitions ex_true_cond ex_cannot_read (fun _ => None)
    (mkDoc "ToDo" "new-todo-1" "owner@example.com" 0 true ∅ "" "") None false = Ok [].
Proof.
  split; [reflexivity|].
  apply get_transitions_new_doc; reflexivity.
Defined.

(** C7: for a persisted document with a non-empty current state, whose
    resolved workflow is [wf] and which the session user may read (the
    precondition of availableTransitions): when the condition of every
    transition leaving the current state can be evaluated,
    [get_transitions] returns exactly the transitions of [wf] leaving the
    current state whose condition evaluates to true, in the workflow's
    order (possibly none), and every returned transition leaves the
    current state and has a condition that evaluates to true. When one of
    those conditions fails to evaluate, [get_transitions] raises
    [ConditionEvaluationError] and returns no list. *)
Theorem get_transitions_exact (try_safe_eval : string -> Doc -> option bool)
    (has_permission : Doc -> bool) (get_workflow : Doc -> option Workflow)
    (doc : Doc) (workflow : option Workflow) (wf : Workflow) (raise_exception : bool) :
  is_new doc = false ->
  has_permission doc = true ->
  match workflow with Some w => Some w | None => get_workflow doc end = Some wf ->
  truthy (doc_get doc (workflow_state_field wf)) = true ->
  ((forall t, In t (transitions wf) -> t_state t = doc_get doc (workflow_state_field wf) ->
      exists b, evaluate_condition_r try_safe_eval (t_condition t) doc = Ok b) ->
   exists ts,
     get_transitions_r try_safe_eval has_permission get_workflow doc workflow raise_exception
       = Ok ts /\
     ts = List.filter (fun t => String.eqb (t_state t) (doc_get doc (workflow_state_field wf))
                                && match evaluate_condition_r try_safe_eval (t_condition t) doc with
                                   | Ok b => b
                                   | Raised _ => false
                                   end)
                      (transitions wf) /\
     (forall t, In t ts ->
        t_state t = doc_get doc (workflow_state_field wf) /\
        evaluate_condition_r try_safe_eval (t_condition t) doc = Ok true)) /\
  ((exists t, In t (transitions wf) /\ t_state t = doc_get doc (workflow_state_field wf) /\
      evaluate_condition_r try_safe_eval (t_condition t) doc = Raised ConditionEvaluationError) ->
   get_transitions_r try_safe_eval has_permission get_workflow doc workflow raise_exception
   = Raised ConditionEvaluationError).
Proof.
  intros Hnew Hperm Hwf Hcur.
  assert (Hg : get_transitions_r try_safe_eval has_permission get_workflow doc workflow
                 raise_exception
               = collect_transitions_r try_safe_eval (doc_get doc (workflow_state_field wf)) doc
                   (transitions wf))
    by (unfold get_transitions_r; rewrite Hnew, Hperm, Hwf; simpl; rewrite Hcur; reflexivity).
  rewrite Hg; split.
  - intros Hev.
    eexists; split; [apply collect_transitions_r_ok; exact Hev|].
    split; [reflexivity|].
    intros t Hin; apply filter_In in Hin as [_ Hp].
    apply andb_prop in Hp as [Hs He].
    split; [apply String.eqb_eq; exact Hs|].
    destruct (evaluate_condition_r try_safe_eval (t_condition t) doc); congruence.
  - intros [t [Hin [Hs He]]]; exact (collect_transitions_r_error _ _ _ _ t Hin Hs He).
Qed.

Lemma get_transitions_exact_witness :
  (forall t, In t (transitions ex_wf) ->
     t_state t = doc_get (ex_doc "Review") (workflow_state_field ex_wf) ->
     exists b, evaluate_condition_r (fun _ _ => None) (t_condition t) (ex_doc "Review") = Ok b) /\
  exists ts,
    get_transitions_r (fun _ _ => None) ex_can_read (fun _ => None) (ex_doc "Review")
      (Some ex_wf) false = Ok ts /\
    ts = List.filter (fun t => String.eqb (t_state t) (doc_get (ex_doc "Review") (workflow_state_field ex_wf))
                               && match evaluate_condition_r (fun _ _ => None) (t_condition t)
                                          (ex_doc "Review") with
                                  | Ok b => b
                                  | Raised _ => false
                                  end)
                     (transitions ex_wf) /\
    (forall t, In t ts ->
       t_state t = doc_get (ex_doc "Review") (workflow_state_field ex_wf) /\
       evaluate_condition_r (fun _ _ => None) (t_condition t) (ex_doc "Review") = Ok true).
Proof.
  assert (Hev : forall t, In t (transitions ex_wf) ->
     t_state t = doc_get (ex_doc "Review") (workflow_state_field ex_wf) ->
     exists b, evaluate_condition_r (fun _ _ => None) (t_condition t) (ex_doc "Review") = Ok b).
  { intros t Hin _; simpl in Hin.
    destruct Hin as [<-|[<-|[]]]; exists true; reflexivity. }
  split; [exact Hev|].
  apply (get_transitions_exact (fun _ _ => None) ex_can_read (fun _ => None)
           (ex_doc "Review") (Some ex_wf) ex_wf false); try reflexivity.
  exact Hev.
Defined.

(** C4 (amended): with no explicit transition and an action other than
    "Start", once [get_transitions] has returned [ts], the effective
    transition is the LAST transition of [ts] whose condition holds and
    whose action label matches; with none, [WorkflowTransitionError] is
    raised. The world is not changed. *)
Theorem resolve_transition_last_match (safe_eval : string -> Doc -> bool)
    (has_permission : Doc -> bool) (get_workflow : Doc -> option Workflow)
    (get_transition_doc : string -> option Transition)
    (wf : Workflow) (doc : Doc) (action : string) (ts : list Transition) (w : World) :
  action <> "Start" ->
  get_transitions safe_eval has_permission get_workflow doc (Some wf) false = Ok ts ->
  resolve_transition safe_eval has_permission get_workflow get_transition_doc wf doc action "" w =
  (match hd_error (rev (List.filter (fun t => evaluate_condition safe_eval (t_condition t) doc
                                              && String.eqb (t_action t) action) ts)) with
   | Some t => Ok t
   | None => Raised WorkflowTransitionError
   end, w).
Proof.
  intros Hstart Hts.
  unfold resolve_transition; simpl.
  apply String.eqb_neq in Hstart; rewrite Hstart, Hts.
  unfold bind, ret; rewrite find_transition_last.
  destruct (hd_error _); reflexivity.
Qed.

Lemma resolve_transition_last_match_witness :
  "Approve" <> "Start" /\
  get_transitions ex_true_cond ex_can_read (fun _ => None) (ex_doc "Review") (Some ex_wf_dup) false
    = Ok [ex_approve; ex_approve_back] /\
  resolve_transition ex_true_cond ex_can_read (fun _ => None) ex_no_transition_doc ex_wf_dup
    (ex_doc "Review") "Approve" "" (ex_world "Review" []) =
  (match hd_error (rev (List.filter (fun t => evaluate_condition ex_true_cond (t_condition t) (ex_doc "Review")
                                              && String.eqb (t_action t) "Approve")
                        [ex_approve; ex_approve_back])) with
   | Some t => Ok t
   | None => Raised WorkflowTransitionError
   end, ex_world "Review" []).
Proof.
  assert (Hs : "Approve" <> "Start") by discriminate.
  assert (Ht : get_transitions ex_true_cond ex_can_read (fun _ => None) (ex_doc "Review")
                 (Some ex_wf_dup) false = Ok [ex_approve; ex_approve_back]) by reflexivity.
  split; [exact Hs|]. split; [exact Ht|].
  exact (resolve_transition_last_match ex_true_cond ex_can_read (fun _ => None)
           ex_no_transition_doc ex_wf_dup (ex_doc "Review") "Approve"
           [ex_approve; ex_approve_back] (ex_world "Review" []) Hs Ht).
Defined.

(** C4 as stated fails: with two unconditioned "Approve" transitions out
    of "Review", the first one ([ex_approve], to "Approved") is not the
    one used; [apply_workflow] by a non-owner takes the second one and
    moves the document to "Draft". *)
Lemma resolve_transition_first_match_fails :
  get_transitions ex_true_cond ex_can_read (ex_get_workflow ex_wf_dup) (ex_doc "Review")
    (Some ex_wf_dup) false = Ok [ex_approve; ex_approve_back] /\
  resolve_transition ex_true_cond ex_can_read (ex_get_workflow ex_wf_dup) ex_no_transition_doc
    ex_wf_dup (ex_doc "Review") "Approve" "" (ex_world "Review" []) =
    (Ok ex_approve_back, ex_world "Review" []) /\
  ex_approve_back <> ex_approve /\
  (let r := apply_workflow ex_true_cond ex_can_read (ex_get_workflow ex_wf_dup)
     ex_no_transition_doc ex_lifecycle_ok "Approve" "" [] "" "" "" "" "reviewer@example.com"
     (ex_world "Review" []) in
   fst r = Ok (w_doc (snd r)) /\ doc_get (w_doc (snd r)) "workflow_state" = "Draft").
Proof.
  split; [reflexivity|]. split; [reflexivity|]. split; [discriminate|].
  vm_compute; split; reflexivity.
Qed.

(** C5 (amended): the pseudo-transition synthesised for "Start" goes to
    the SOURCE state of the workflow's first declared transition, allows
    self-approval and has mode "Any". *)
Theorem resolve_transition_start (safe_eval : string -> Doc -> bool)
    (has_permission : Doc -> bool) (get_workflow : Doc -> option Workflow)
    (get_transition_doc : string -> option Transition)
    (wf : Workflow) (doc : Doc) (t0 : Transition) (rest : list Transition) (w : World) :
  transitions wf = t0 :: rest ->
  exists t,
    resolve_transition safe_eval has_permission get_workflow get_transition_doc wf doc "Start" "" w
      = (Ok t, w) /\
    t_next_state t = t_state t0 /\
    t_allow_self_approval t = true /\
    t_multi_user_action_mode t = "Any".
Proof.
  intros Ht; exists (start_transition (t_state t0)).
  unfold resolve_transition; simpl; rewrite Ht; simpl.
  repeat split.
Qed.

Lemma resolve_transition_start_witness :
  exists t,
    resolve_transition ex_true_cond ex_can_read (ex_get_workflow ex_wf) ex_no_transition_doc
      ex_wf (ex_doc "Draft") "Start" "" (ex_world "Draft" []) = (Ok t, ex_world "Draft" []) /\
    t_next_state t = t_state ex_submit_for_review /\
    t_allow_self_approval t = true /\
    t_multi_user_action_mode t = "Any".
Proof.
  apply (resolve_transition_start ex_true_cond ex_can_read (ex_get_workflow ex_wf)
           ex_no_transition_doc ex_wf (ex_doc "Draft") ex_submit_for_review [ex_approve]).
  reflexivity.
Defined.

(** C5 as stated fails: the first transition is Draft -> Review, but
    "Start" resolves to a pseudo-transition into "Draft", and applying it
    leaves the document in "Draft". *)
Lemma start_does_not_target_first_transition_target :
  exists t,
    resolve_transition ex_true_cond ex_can_read (ex_get_workflow ex_wf) ex_no_transition_doc
      ex_wf (ex_doc "Draft") "Start" "" (ex_world "Draft" []) = (Ok t, ex_world "Draft" []) /\
    t_next_state t = "Draft" /\
    t_next_state ex_submit_for_review = "Review" /\
    (let r := apply_workflow ex_true_cond ex_can_read (ex_get_workflow ex_wf)
       ex_no_transition_doc ex_lifecycle_ok "Start" "" [] "" "" "" "" "owner@example.com"
       (ex_world "Draft" []) in
     fst r = Ok (w_doc (snd r)) /\ doc_get (w_doc (snd r)) "workflow_state" = "Draft").
Proof.
  eexists; split; [reflexivity|]. split; [reflexivity|]. split; [reflexivity|].
  vm_compute; split; reflexivity.
Qed.

Lemma lifecycle_table_outside (c n : Z) :
  ~ In (c, n) legal_lifecycle_pairs -> lifecycle_table c n = None.
Proof.
  intros Hout; unfold lifecycle_table.
  repeat match goal with
         | |- context [Z.eqb ?a ?b] => destruct (Z.eqb_spec a b)
         end; subst; simpl; try reflexivity; try (exfalso; lia);
  exfalso; apply Hout; unfold legal_lifecycle_pairs; simpl; tauto.
Qed.

(** C1 (amended): the lifecycle operation of the state-advancing branch
    is given by the table (0,0)->save, (0,1)->submit, (1,1)->save,
    (1,2)->cancel on (current docstatus, target state's docstatus); the
    operation is invoked (and either succeeds and is recorded or fails
    with the store's error). Any other pair raises
    [IllegalLifecycleTransition] with no lifecycle operation invoked, no
    ledger change and no audit comment, and leaves the document as lines
    202-215 set it: the workflow action and comment, the state field set
    to the target state, then the target state's update field set to its
    update value when that field is non-empty. *)
Theorem advance_state_lifecycle (lifecycle_ok : LifecycleOp -> Doc -> bool)
    (wf : Workflow) (t : Transition) (action comment : string) (w : World)
    (nm : string) (ns : WState) :
  next_state_name wf t action = Some nm ->
  find_state wf nm = Some ns ->
  (lifecycle_table 0 0 = Some OpSave /\ lifecycle_table 0 1 = Some OpSubmit /\
   lifecycle_table 1 1 = Some OpSave /\ lifecycle_table 1 2 = Some OpCancel /\
   (forall c n, ~ In (c, n) legal_lifecycle_pairs -> lifecycle_table c n = None)) /\
  let r := advance_state lifecycle_ok wf t action comment w in
  match lifecycle_table (docstatus (w_doc w)) (doc_status ns) with
  | Some op =>
      (fst r = Ok tt /\ w_lifecycle (snd r) = (w_lifecycle w ++ [op])%list) \/
      (fst r = Raised (LifecycleFailed op) /\ w_lifecycle (snd r) = w_lifecycle w)
  | None =>
      fst r = Raised IllegalLifecycleTransition /\
      w_lifecycle (snd r) = w_lifecycle w /\
      w_actions (snd r) = w_actions w /\
      w_comments (snd r) = w_comments w /\
      w_doc (snd r) =
        (let d := doc_set (set_workflow_action (w_doc w) action comment)
                          (workflow_state_field wf) nm in
         if truthy (update_field ns) then doc_set d (update_field ns) (update_value ns)
         else d)
  end.
Proof.
  intros Hnm Hns.
  split; [split; [reflexivity|split; [reflexivity|split; [reflexivity|split; [reflexivity|]]]];
          exact lifecycle_table_outside|].
  cbv zeta.
  unfold advance_state, bind, get_doc_m, put_doc, modify, ret, raise.
  rewrite Hnm, Hns.
  destruct (truthy (update_field ns)); simpl;
  destruct (lifecycle_table (docstatus (w_doc w)) (doc_status ns)) as [op|];
  try (repeat split; reflexivity);
  unfold run_lifecycle; simpl;
  match goal with
  | |- context [lifecycle_ok op ?d] => destruct (lifecycle_ok op d)
  end; simpl; [left|right|left|right]; split; reflexivity.
Qed.

Lemma advance_state_lifecycle_witness :
  (next_state_name ex_wf ex_approve "Approve" = Some "Approved" /\
   find_state ex_wf "Approved" = Some (mkWState "Approved" 1 "" "") /\
   ((lifecycle_table 0 0 = Some OpSave /\ lifecycle_table 0 1 = Some OpSubmit /\
     lifecycle_table 1 1 = Some OpSave /\ lifecycle_table 1 2 = Some OpCancel /\
     (forall c n, ~ In (c, n) legal_lifecycle_pairs -> lifecycle_table c n = None)) /\
    let r := advance_state ex_lifecycle_ok ex_wf ex_approve "Approve" "" (ex_world "Review" []) in
    match lifecycle_table (docstatus (w_doc (ex_world "Review" [])))
            (doc_status (mkWState "Approved" 1 "" "")) with
    | Some op =>
        (fst r = Ok tt /\ w_lifecycle (snd r) = (w_lifecycle (ex_world "Review" []) ++ [op])%list) \/
        (fst r = Raised (LifecycleFailed op) /\ w_lifecycle (snd r) = w_lifecycle (ex_world "Review" []))
    | None =>
        fst r = Raised IllegalLifecycleTransition /\
        w_lifecycle (snd r) = w_lifecycle (ex_world "Review" []) /\
        w_actions (snd r) = w_actions (ex_world "Review" []) /\
        w_comments (snd r) = w_comments (ex_world "Review" []) /\
        w_doc (snd r) =
          (let d := doc_set (set_workflow_action (w_doc (ex_world "Review" [])) "Approve" "")
                            (workflow_state_field ex_wf) "Approved" in
           if truthy (update_field (mkWState "Approved" 1 "" ""))
           then doc_set d (update_field (mkWState "Approved" 1 "" ""))
                          (update_value (mkWState "Approved" 1 "" ""))
           else d)
    end)) /\
  (next_state_name ex_wf ex_cancel_from_review "Cancel" = Some "Cancelled" /\
   find_state ex_wf "Cancelled" = Some (mkWState "Cancelled" 2 "" "") /\
   ((lifecycle_table 0 0 = Some OpSave /\ lifecycle_table 0 1 = Some OpSubmit /\
     lifecycle_table 1 1 = Some OpSave /\ lifecycle_table 1 2 = Some OpCancel /\
     (forall c n, ~ In (c, n) legal_lifecycle_pairs -> lifecycle_table c n = None)) /\
    let r := advance_state ex_lifecycle_ok ex_wf ex_cancel_from_review "Cancel" ""
               (ex_world "Review" []) in
    match lifecycle_table (docstatus (w_doc (ex_world "Review" [])))
            (doc_status (mkWState "Cancelled" 2 "" "")) with
    | Some op =>
        (fst r = Ok tt /\ w_lifecycle (snd r) = (w_lifecycle (ex_world "Review" []) ++ [op])%list) \/
        (fst r = Raised (LifecycleFailed op) /\ w_lifecycle (snd r) = w_lifecycle (ex_world "Review" []))
    | None =>
        fst r = Raised IllegalLifecycleTransition /\
        w_lifecycle (snd r) = w_lifecycle (ex_world "Review" []) /\
        w_actions (snd r) = w_actions (ex_world "Review" []) /\
        w_comments (snd r) = w_comments (ex_world "Review" []) /\
        w_doc (snd r) =
          (let d := doc_set (set_workflow_action (w_doc (ex_world "Review" [])) "Cancel" "")
                            (workflow_state_field ex_wf) "Cancelled" in
           if truthy (update_field (mkWState "Cancelled" 2 "" ""))
           then doc_set d (update_field (mkWState "Cancelled" 2 "" ""))
                          (update_value (mkWState "Cancelled" 2 "" ""))
           else d)
    end)).
Proof.
  split.
  - split; [reflexivity|]. split; [reflexivity|].
    apply (advance_state_lifecycle ex_lifecycle_ok ex_wf ex_approve "Approve" ""
             (ex_world "Review" []) "Approved" (mkWState "Approved" 1 "" "")); reflexivity.
  - split; [reflexivity|]. split; [reflexivity|].
    apply (advance_state_lifecycle ex_lifecycle_ok ex_wf ex_cancel_from_review "Cancel" ""
             (ex_world "Review" []) "Cancelled" (mkWState "Cancelled" 2 "" "")); reflexivity.
Defined.

(** C1 as stated fails: a transition from "Review" (docstatus 0) into
    "Cancelled" (docstatus 2) raises [IllegalLifecycleTransition], but
    the document has already been modified: its state field reads
    "Cancelled" and its [workflow_action] is set. *)
Lemma illegal_lifecycle_mutates_document :
  let w := ex_world "Review" [] in
  let r := apply_workflow ex_true_cond ex_can_read (ex_get_workflow ex_wf)
             ex_cancel_transition_doc ex_lifecycle_ok "Cancel" "WT-CANCEL" [] "" "" "" ""
             "reviewer@example.com" w in
  fst r = Raised IllegalLifecycleTransition /\
  ~ In (docstatus (w_doc w), doc_status (mkWState "Cancelled" 2 "" "")) legal_lifecycle_pairs /\
  doc_get (w_doc w) "workflow_state" = "Review" /\
  doc_get (w_doc (snd r)) "workflow_state" = "Cancelled" /\
  workflow_action (w_doc (snd r)) = "Cancel" /\
  w_doc (snd r) <> w_doc w.
Proof.
  cbv zeta.
  split; [vm_compute; reflexivity|].
  split; [unfold legal_lifecycle_pairs; simpl; intros H; intuition congruence|].
  split; [vm_compute; reflexivity|]. split; [vm_compute; reflexivity|].
  split; [vm_compute; reflexivity|].
  intros H; apply (f_equal (fun d => doc_get d "workflow_state")) in H.
  vm_compute in H; discriminate H.
Qed.


Lemma doc_get_doc_set_eq (d : Doc) (f v : string) : doc_get (doc_set d f v) f = v.
Proof. unfold doc_get, doc_set; simpl; rewrite lookup_insert_eq; reflexivity. Qed.









Lemma process_item_step (run_item : string -> ItemRun) (n : nat) (bs : BulkState)
    (idx : nat) (d : string) :
  message_log (bs_world bs) = [] ->
  process_item run_item n bs idx d =
  {| bs_world := {| message_log := [];
                    events := (events (bs_world bs) ++ item_events n idx d (run_item d))%list |};
     failed_transactions := (failed_transactions bs ++ item_failed d (run_item d))%list;
     successful_transactions := (successful_transactions bs ++ item_successful d (run_item d))%list |}.
Proof.
  intros Hlog.
  unfold process_item, item_events, item_failed, item_successful; rewrite Hlog; simpl.
  destruct (run_item d) as [msgs [e|]]; simpl;
  destruct msgs as [|m msgs]; simpl;
  unfold finally_block; simpl; rewrite ?app_nil_r, <- ?app_assoc; reflexivity.
Qed.

Lemma process_items_spec (run_item : string -> ItemRun) (n : nat) (ds : list string) :
  forall (bs : BulkState) (idx : nat),
  message_log (bs_world bs) = [] ->
  process_items run_item n bs idx ds =
  {| bs_world := {| message_log := [];
                    events := (events (bs_world bs) ++
                               per_item (fun i d => item_events n i d (run_item d)) idx ds)%list |};
     failed_transactions := (failed_transactions bs ++
                             per_item (fun _ d => item_failed d (run_item d)) idx ds)%list;
     successful_transactions := (successful_transactions bs ++
                                 per_item (fun _ d => item_successful d (run_item d)) idx ds)%list |}.
Proof.
  induction ds as [|d ds IH]; intros bs idx Hlog; simpl.
  - destruct bs as [[log ev] f s]; simpl in *; subst log; rewrite !app_nil_r; reflexivity.
  - rewrite process_item_step by exact Hlog.
    rewrite IH by reflexivity; simpl.
    rewrite <- !app_assoc; reflexivity.
Qed.

Lemma bulk_workflow_approval_spec (run_item : string -> ItemRun) (ds : list string)
    (w0 : BulkWorld) :
  bulk_workflow_approval run_item ds w0 =
  ({| r_failed := per_item (fun _ d => item_failed d (run_item d)) 1 ds;
      r_successful := per_item (fun _ d => item_successful d (run_item d)) 1 ds;
      r_indicator := indicator (per_item (fun _ d => item_failed d (run_item d)) 1 ds)
                               (per_item (fun _ d => item_successful d (run_item d)) 1 ds) |},
   {| message_log := [];
      events := (events w0 ++ per_item (fun i d => item_events (length ds) i d (run_item d)) 1 ds)%list |}).
Proof.
  unfold bulk_workflow_approval.
  rewrite process_items_spec by reflexivity; reflexivity.
Qed.

Lemma in_per_item {A : Type} (f : nat -> string -> list A) (x : A) :
  forall (ds : list string) (idx : nat),
  In x (per_item f idx ds) -> exists i d, In d ds /\ In x (f i d).
Proof.
  induction ds as [|d ds IH]; intros idx Hin; simpl in Hin; [contradiction|].
  apply in_app_or in Hin; destruct Hin as [Hin|Hin].
  - exists idx, d; split; [left; reflexivity|exact Hin].
  - destruct (IH (S idx) Hin) as [i [d' [Hd Hx]]].
    exists i, d'; split; [right; exact Hd|exact Hx].
Qed.

Lemma per_item_in {A : Type} (f : nat -> string -> list A) (x : A) (d : string) :
  (forall j, In x (f j d)) ->
  forall (ds : list string) (idx : nat), In d ds -> In x (per_item f idx ds).
Proof.
  intros Hx ds; induction ds as [|d' ds IH]; intros idx Hd; simpl in *; [contradiction|].
  apply in_or_app; destruct Hd as [<-|Hd]; [left; apply Hx|right; apply IH; exact Hd].
Qed.

(** Every item leaves at least one entry, failed or successful. *)
Lemma item_entry_exists (d : string) (r : ItemRun) :
  exists m, In (d, m) (item_failed d r ++ item_successful d r)%list.
Proof.
  unfold item_failed, item_successful.
  destruct r as [msgs oe]; simpl.
  destruct msgs as [|m msgs].
  - destruct oe as [e|]; simpl; eexists; [left; reflexivity|left; reflexivity].
  - exists (Some (m_message m)); apply in_or_app.
    destruct (m_raise_exception m) eqn:Hr; simpl;
    [left; left; reflexivity|right; left; reflexivity].
Qed.

(** C8 (amended): the bulk run processes the documents in input order,
    each with its own effects: progress (batches of five or more), apply,
    then commit when the item raised nothing, or rollback and error log
    when it raised; what one item does never depends on the others. Every
    item leaves at least one report entry. Entries are classified per
    message: an item whose error left no message gets one failed entry
    naming the exception, a silent success one successful entry, and
    otherwise every logged message becomes a failed entry when it was
    raised and a successful entry when it was only shown. The severity is
    "orange" when both kinds of entries exist, "red" when only failed
    entries exist, "green" otherwise. *)
Theorem bulk_workflow_approval_report (run_item : string -> ItemRun) (ds : list string)
    (w0 : BulkWorld) :
  let rep := fst (bulk_workflow_approval run_item ds w0) in
  let w' := snd (bulk_workflow_approval run_item ds w0) in
  events w' = (events w0 ++ per_item (fun i d => item_events (length ds) i d (run_item d)) 1 ds)%list /\
  r_failed rep = per_item (fun _ d => item_failed d (run_item d)) 1 ds /\
  r_successful rep = per_item (fun _ d => item_successful d (run_item d)) 1 ds /\
  (forall d, In d ds -> exists m, In (d, m) (r_failed rep ++ r_successful rep)%list) /\
  ((r_failed rep <> [] /\ r_successful rep <> [] /\ r_indicator rep = "orange") \/
   (r_failed rep <> [] /\ r_successful rep = [] /\ r_indicator rep = "red") \/
   (r_failed rep = [] /\ r_indicator rep = "green")).
Proof.
  cbv zeta; rewrite bulk_workflow_approval_spec; simpl.
  split; [reflexivity|]. split; [reflexivity|]. split; [reflexivity|].
  split.
  - intros d Hd.
    destruct (item_entry_exists d (run_item d)) as [m Hm].
    exists m; apply in_app_or in Hm; apply in_or_app; destruct Hm as [Hm|Hm];
    [left|right]; apply (per_item_in _ _ d); auto.
  - unfold indicator.
    destruct (per_item (fun _ d => item_failed d (run_item d)) 1 ds);
    destruct (per_item (fun _ d => item_successful d (run_item d)) 1 ds);
    [right; right | right; right | right; left | left];
    repeat split; try reflexivity; discriminate.
Qed.

(** C8 as stated fails: a batch whose only item fails (it shows an
    informational message and then raises through [frappe.throw]) is
    reported "orange", with the item among the successful ones too. *)
Lemma bulk_all_failed_not_red :
  let rep := fst (bulk_workflow_approval ex_run_throw_after_info ["TD-0001"] (mkBulkWorld [] [])) in
  run_exception (ex_run_throw_after_info "TD-0001") <> None /\
  r_failed rep = [("TD-0001", Some "Not allowed")] /\
  r_successful rep = [("TD-0001", Some "Document updated")] /\
  r_indicator rep = "orange".
Proof. vm_compute; split; [discriminate|repeat split]. Qed.

(** C10: the bulk run empties the message log before its first item:
    its report and effects are the same whatever the log held before, and
    every message in the report was produced by one of the batch's own
    items (a message it logged or the exception it raised). *)
Theorem bulk_clears_message_log (run_item : string -> ItemRun) (ds : list string)
    (w0 : BulkWorld) :
  bulk_workflow_approval run_item ds w0 =
  bulk_workflow_approval run_item ds {| message_log := []; events := events w0 |} /\
  (forall d m,
     In (d, Some m) (r_failed (fst (bulk_workflow_approval run_item ds w0)) ++
                     r_successful (fst (bulk_workflow_approval run_item ds w0)))%list ->
     In d ds /\
     ((exists msg, In msg (run_messages (run_item d)) /\ m_message msg = m) \/
      (exists e, run_exception (run_item d) = Some e /\ exn_message e = m))).
Proof.
  split; [reflexivity|].
  intros d m Hin; rewrite bulk_workflow_approval_spec in Hin; simpl in Hin.
  apply in_app_or in Hin.
  destruct Hin as [Hin|Hin]; apply in_per_item in Hin; destruct Hin as [i [d' [Hd' Hx]]];
  unfold item_failed, item_successful in Hx;
  destruct (run_item d') as [msgs oe] eqn:Hr; cbn [run_messages run_exception] in Hx;
  (destruct msgs as [|m0 msgs];
   [destruct oe as [e|]; simpl in Hx;
    [try (destruct Hx as [Hx|[]]; injection Hx as <- <-; split; [exact Hd'|];
          right; exists e; rewrite Hr; split; reflexivity)
    |try (destruct Hx as [Hx|[]]; discriminate Hx)];
    try contradiction
   |cbv beta iota in Hx; apply in_map_iff in Hx; destruct Hx as [msg [Hx Hmsg]];
    injection Hx as <- <-; apply filter_In in Hmsg; destruct Hmsg as [Hmsg _];
    split; [exact Hd'|]; left; exists msg; rewrite Hr; split; [exact Hmsg|reflexivity]]).
Qed.

(** ** Further properties of workflow.py *)

Ltac split_matches :=
  repeat match goal with
         | |- context [match ?x with _ => _ end] => destruct x
         | |- context [if ?b then _ else _] => destruct b
         end.

Lemma validate_workflow_doc (safe_eval : string -> Doc -> bool)
    (has_permission : Doc -> bool) (get_workflow : Doc -> option Workflow)
    (session_user : string) (before : Snapshot) (doc : Doc) (wf : Workflow) :
  get_workflow doc = Some wf ->
  snd (validate_workflow safe_eval has_permission get_workflow session_user before doc) =
  (if truthy (doc_get doc (workflow_state_field wf)) then doc
   else match states wf with
        | s0 :: _ => doc_set doc (workflow_state_field wf) (st_state s0)
        | [] => doc
        end).
Proof.
  intros Hgw; unfold validate_workflow; rewrite Hgw; cbv zeta.
  destruct (truthy (doc_get doc (workflow_state_field wf)));
  destruct (states wf) as [|s0 rest]; simpl; split_matches; reflexivity.
Qed.

(** X1: when the state field is empty, [validate_workflow] fills it with
    the workflow's first state, whatever the outcome of the check. *)
Theorem validate_workflow_fills_empty_state (safe_eval : string -> Doc -> bool)
    (has_permission : Doc -> bool) (get_workflow : Doc -> option Workflow)
    (session_user : string) (before : Snapshot) (doc : Doc) (wf : Workflow)
    (s0 : WState) (rest : list WState) :
  get_workflow doc = Some wf ->
  states wf = s0 :: rest ->
  doc_get doc (workflow_state_field wf) = "" ->
  doc_get (snd (validate_workflow safe_eval has_permission get_workflow session_user before doc))
          (workflow_state_field wf) = st_state s0.
Proof.
  intros Hgw Hs He.
  rewrite (validate_workflow_doc _ _ _ _ _ _ wf Hgw), He, Hs; simpl.
  apply doc_get_doc_set_eq.
Qed.

Lemma validate_workflow_fills_empty_state_witness :
  doc_get (snd (validate_workflow ex_true_cond ex_can_read (ex_get_workflow ex_wf)
                  "reviewer@example.com" NoneSnap (ex_doc "")))
          (workflow_state_field ex_wf) = st_state (mkWState "Draft" 0 "" "").
Proof.
  apply (validate_workflow_fills_empty_state ex_true_cond ex_can_read (ex_get_workflow ex_wf)
           "reviewer@example.com" NoneSnap (ex_doc "") ex_wf (mkWState "Draft" 0 "" "")
           (List.tl ex_states)); reflexivity.
Defined.


Lemma find_state_head (wf : Workflow) (s0 : WState) (rest : list WState) :
  states wf = s0 :: rest -> find_state wf (st_state s0) = Some s0.
Proof.
  intros Hs; unfold find_state; rewrite Hs; simpl; rewrite String.eqb_refl; reflexivity.
Qed.

(** X2: the owner may save the document while its saved state is the
    first state (or none): [validate_workflow] accepts whatever the new
    state is. *)
Theorem validate_workflow_owner_at_first_state (safe_eval : string -> Doc -> bool)
    (has_permission : Doc -> bool) (get_workflow : Doc -> option Workflow)
    (session_user : string) (before : Snapshot) (doc : Doc) (wf : Workflow)
    (s0 : WState) (rest : list WState) :
  get_workflow doc = Some wf ->
  states wf = s0 :: rest ->
  session_user = owner doc ->
  (forall b, snapshot_doc before = Some b ->
     doc_get b (workflow_state_field wf) = "" \/
     doc_get b (workflow_state_field wf) = st_state s0) ->
  fst (validate_workflow safe_eval has_permission get_workflow session_user before doc) = ROk tt.
Proof.
  intros Hgw Hs Ho Hb; unfold validate_workflow; rewrite Hgw, Hs; cbv zeta.
  assert (Hcur : (if truthy (match snapshot_doc before with
                             | Some b => doc_get b (workflow_state_field wf)
                             | None => "" end)
                  then match snapshot_doc before with
                       | Some b => doc_get b (workflow_state_field wf)
                       | None => "" end
                  else st_state s0) = st_state s0).
  { destruct (snapshot_doc before) as [b|] eqn:E; [|reflexivity].
    destruct (Hb b eq_refl) as [H|H]; rewrite H; [reflexivity|].
    destruct (truthy (st_state s0)); reflexivity. }
  destruct (truthy (doc_get doc (workflow_state_field wf))); simpl;
    rewrite Hcur, String.eqb_refl, Ho; simpl; rewrite String.eqb_refl; reflexivity.
Qed.

Lemma validate_workflow_owner_at_first_state_witness :
  fst (validate_workflow ex_true_cond ex_cannot_read (ex_get_workflow ex_wf)
         "owner@example.com" (Snap (ex_doc "Draft")) (ex_doc "Approved")) = ROk tt.
Proof.
  apply (validate_workflow_owner_at_first_state ex_true_cond ex_cannot_read (ex_get_workflow ex_wf)
           "owner@example.com" (Snap (ex_doc "Draft")) (ex_doc "Approved") ex_wf
           (mkWState "Draft" 0 "" "") (List.tl ex_states)); try reflexivity.
  intros b Hb; injection Hb as <-; right; reflexivity.
Defined.


(** X3: without a saved version ([_doc_before_save] is None), a user
    other than the owner cannot save the document in a state other than
    the first: [WorkflowPermissionError]. *)
Theorem validate_workflow_no_snapshot_rejects (safe_eval : string -> Doc -> bool)
    (has_permission : Doc -> bool) (get_workflow : Doc -> option Workflow)
    (session_user : string) (doc : Doc) (wf : Workflow)
    (s0 : WState) (rest : list WState) :
  get_workflow doc = Some wf ->
  states wf = s0 :: rest ->
  session_user <> owner doc ->
  doc_get doc (workflow_state_field wf) <> "" ->
  doc_get doc (workflow_state_field wf) <> st_state s0 ->
  fst (validate_workflow safe_eval has_permission get_workflow session_user NoneSnap doc)
  = RErr WorkflowPermissionError.
Proof.
  intros Hgw Hs Ho Hne Hn0; unfold validate_workflow; rewrite Hgw, Hs; cbv zeta; simpl.
  assert (Ht : truthy (doc_get doc (workflow_state_field wf)) = true).
  { unfold truthy; apply negb_true_iff, String.eqb_neq; exact Hne. }
  rewrite Ht.
  apply String.eqb_neq in Ho; rewrite Ho; simpl.
  rewrite (find_state_head wf s0 rest Hs).
  assert (E : String.eqb (doc_get doc (workflow_state_field wf)) (st_state s0) = false)
    by (apply String.eqb_neq; exact Hn0).
  rewrite E, andb_false_r.
  assert (E' : String.eqb (st_state s0) (doc_get doc (workflow_state_field wf)) = false)
    by (apply String.eqb_neq; intros H; apply Hn0; symmetry; exact H).
  rewrite E'; reflexivity.
Qed.

Lemma validate_workflow_no_snapshot_rejects_witness :
  fst (validate_workflow ex_true_cond ex_can_read (ex_get_workflow ex_wf)
         "reviewer@example.com" NoneSnap (ex_doc "Review")) = RErr WorkflowPermissionError.
Proof.
  apply (validate_workflow_no_snapshot_rejects ex_true_cond ex_can_read (ex_get_workflow ex_wf)
           "reviewer@example.com" (ex_doc "Review") ex_wf
           (mkWState "Draft" 0 "" "") (List.tl ex_states));
    try reflexivity; vm_compute; discriminate.
Defined.


(** X4: when [validate_workflow] accepts a change of state outside its two
    exemptions (the owner at the first state, a Reject back to the first
    state), a transition into the new state is available from the saved
    version. *)
Theorem validate_workflow_change_needs_transition (safe_eval : string -> Doc -> bool)
    (has_permission : Doc -> bool) (get_workflow : Doc -> option Workflow)
    (session_user : string) (b doc : Doc) (wf : Workflow)
    (s0 : WState) (rest : list WState) (cur next : string) :
  get_workflow doc = Some wf ->
  states wf = s0 :: rest ->
  cur = (if truthy (doc_get b (workflow_state_field wf))
         then doc_get b (workflow_state_field wf) else st_state s0) ->
  next = (if truthy (doc_get doc (workflow_state_field wf))
          then doc_get doc (workflow_state_field wf) else st_state s0) ->
  session_user <> owner doc \/ cur <> st_state s0 ->
  workflow_action doc <> "Reject" \/ next <> st_state s0 ->
  cur <> next ->
  fst (validate_workflow safe_eval has_permission get_workflow session_user (Snap b) doc)
  = ROk tt ->
  exists ts t, get_transitions safe_eval has_permission get_workflow b None false = Ok ts
               /\ In t ts /\ t_next_state t = next.
Proof.
  intros Hgw Hs Hcur Hnext Hown Hrej Hne Hok.
  unfold validate_workflow in Hok; rewrite Hgw, Hs in Hok; cbv zeta in Hok; simpl in Hok.
  rewrite <- Hcur in Hok.
  destruct (truthy (doc_get doc (workflow_state_field wf))) eqn:Ht;
    [rewrite <- Hnext in Hok | subst next]; cbn [owner workflow_action doc_set] in Hok;
  repeat (match type of Hok with
          | context [String.eqb ?x ?y] => destruct (String.eqb_spec x y)
          | context [match find_state ?w ?c with _ => _ end] => destruct (find_state w c)
          | context [match get_transitions ?a ?b ?c ?d ?e ?f with _ => _ end] =>
              destruct (get_transitions a b c d e f) as [ts|?] eqn:Hgt
          | context [existsb ?p ?l] => destruct (existsb p l) eqn:Hex
          end; simpl in Hok);
  try discriminate Hok;
  try (exfalso; destruct Hown; destruct Hrej; congruence);
  apply existsb_exists in Hex as [t [Hin Ht']];
  apply String.eqb_eq in Ht'; exists ts, t; auto.
Qed.

Lemma validate_workflow_change_needs_transition_witness :
  exists ts t, get_transitions ex_true_cond ex_can_read (ex_get_workflow ex_wf)
                 (ex_doc "Draft") None false = Ok ts
               /\ In t ts /\ t_next_state t = "Review".
Proof.
  apply (validate_workflow_change_needs_transition ex_true_cond ex_can_read
           (ex_get_workflow ex_wf) "reviewer@example.com" (ex_doc "Draft") (ex_doc "Review")
           ex_wf (mkWState "Draft" 0 "" "") (List.tl ex_states) "Draft" "Review");
    try reflexivity; try (left; vm_compute; discriminate); try (vm_compute; discriminate).
Defined.


(** X5: saving a document whose state is unchanged from its saved
    version, and valid, is accepted for every user. *)
Theorem validate_workflow_same_state (safe_eval : string -> Doc -> bool)
    (has_permission : Doc -> bool) (get_workflow : Doc -> option Workflow)
    (session_user : string) (b doc : Doc) (wf : Workflow)
    (s0 : WState) (rest : list WState) :
  get_workflow doc = Some wf ->
  states wf = s0 :: rest ->
  doc_get doc (workflow_state_field wf) = doc_get b (workflow_state_field wf) ->
  truthy (doc_get b (workflow_state_field wf)) = true ->
  find_state wf (doc_get b (workflow_state_field wf)) <> None ->
  fst (validate_workflow safe_eval has_permission get_workflow session_user (Snap b) doc)
  = ROk tt.
Proof.
  intros Hgw Hs Heq Ht Hf; unfold validate_workflow; rewrite Hgw, Hs; cbv zeta; simpl.
  rewrite Heq, Ht.
  destruct (_ && _); [reflexivity|].
  destruct (_ && _); [reflexivity|].
  destruct (find_state wf (doc_get b (workflow_state_field wf))); [|contradiction].
  rewrite String.eqb_refl; reflexivity.
Qed.

Lemma validate_workflow_same_state_witness :
  fst (validate_workflow ex_true_cond ex_cannot_read (ex_get_workflow ex_wf)
         "reviewer@example.com" (Snap (ex_doc "Approved")) (ex_doc "Approved")) = ROk tt.
Proof.
  apply (validate_workflow_same_state ex_true_cond ex_cannot_read (ex_get_workflow ex_wf)
           "reviewer@example.com" (ex_doc "Approved") (ex_doc "Approved") ex_wf
           (mkWState "Draft" 0 "" "") (List.tl ex_states)); try reflexivity.
  vm_compute; discriminate.
Defined.

(** X6: a Reject that sends the document back to the first state (or
    leaves its state empty) is accepted whatever the saved version and
    the user. *)
Theorem validate_workflow_reject_to_first_state (safe_eval : string -> Doc -> bool)
    (has_permission : Doc -> bool) (get_workflow : Doc -> option Workflow)
    (session_user : string) (before : Snapshot) (doc : Doc) (wf : Workflow)
    (s0 : WState) (rest : list WState) :
  get_workflow doc = Some wf ->
  states wf = s0 :: rest ->
  workflow_action doc = "Reject" ->
  doc_get doc (workflow_state_field wf) = "" \/
  doc_get doc (workflow_state_field wf) = st_state s0 ->
  fst (validate_workflow safe_eval has_permission get_workflow session_user before doc)
  = ROk tt.
Proof.
  intros Hgw Hs Hr Hd; unfold validate_workflow; rewrite Hgw, Hs; cbv zeta; simpl.
  destruct Hd as [Hd|Hd]; rewrite Hd;
    [|destruct (truthy (st_state s0))]; simpl;
    (destruct (_ && _); [reflexivity|]);
    cbn [workflow_action doc_set]; rewrite Hr, !String.eqb_refl; reflexivity.
Qed.

Lemma validate_workflow_reject_to_first_state_witness :
  fst (validate_workflow ex_true_cond ex_cannot_read (ex_get_workflow ex_wf)
         "reviewer@example.com" NoneSnap
         (set_workflow_action (ex_doc "Draft") "Reject" "")) = ROk tt.
Proof.
  apply (validate_workflow_reject_to_first_state ex_true_cond ex_cannot_read
           (ex_get_workflow ex_wf) "reviewer@example.com" NoneSnap
           (set_workflow_action (ex_doc "Draft") "Reject" "") ex_wf
           (mkWState "Draft" 0 "" "") (List.tl ex_states)); try reflexivity.
  right; reflexivity.
Defined.

Lemma doc_set_doc_set (d : Doc) (f v w : string) :
  doc_set (doc_set d f v) f w = doc_set d f w.
Proof. unfold doc_set; simpl; rewrite insert_insert_eq; reflexivity. Qed.

(** X7: [set_workflow_state_on_action] is idempotent: run again with the
    same action on its result, it returns that result unchanged. *)
Theorem set_workflow_state_on_action_idempotent
    (get_workflow_doc : string -> option Workflow) (doc d' : Doc)
    (workflow_name action : string) :
  set_workflow_state_on_action get_workflow_doc doc workflow_name action = ROk d' ->
  set_workflow_state_on_action get_workflow_doc d' workflow_name action = ROk d'.
Proof.
  unfold set_workflow_state_on_action.
  destruct (get_workflow_doc workflow_name) as [wf|]; [|discriminate].
  destruct (existsb _ (states wf)) eqn:E.
  - intros H; injection H as <-; rewrite E; reflexivity.
  - destruct (action_map action) as [ds|]; [|discriminate].
    destruct (List.find _ (states wf)) as [s|] eqn:F; intros H; injection H as <-.
    + match goal with |- (if ?b then _ else _) = _ => destruct b end; [reflexivity|].
      rewrite doc_set_doc_set; reflexivity.
    + match goal with |- (if ?b then _ else _) = _ => destruct b end; reflexivity.
Qed.

Lemma set_workflow_state_on_action_idempotent_witness :
  set_workflow_state_on_action (fun _ => Some ex_wf)
    (doc_set (set_docstatus (ex_doc "Draft") 1) "workflow_state" "Cancelled") "WF" "cancel"
  = ROk (doc_set (set_docstatus (ex_doc "Draft") 1) "workflow_state" "Cancelled").
Proof.
  apply (set_workflow_state_on_action_idempotent (fun _ => Some ex_wf)
           (set_docstatus (ex_doc "Draft") 1)).
  vm_compute; reflexivity.
Defined.

(** X8: a document whose state field names a state of the workflow with
    the document's docstatus is returned unchanged, whatever the action,
    also one [action_map] does not know. *)
Theorem set_workflow_state_on_action_consistent
    (get_workflow_doc : string -> option Workflow) (doc : Doc) (wf : Workflow)
    (workflow_name action : string) (s : WState) :
  get_workflow_doc workflow_name = Some wf ->
  In s (states wf) ->
  fields doc !! workflow_state_field wf = Some (st_state s) ->
  docstatus doc = doc_status s ->
  set_workflow_state_on_action get_workflow_doc doc workflow_name action = ROk doc.
Proof.
  intros Hw Hin Hf Hd; unfold set_workflow_state_on_action; rewrite Hw.
  replace (existsb _ (states wf)) with true; [reflexivity|].
  symmetry; apply existsb_exists; exists s; split; [exact Hin|].
  rewrite Hf, Hd, bool_decide_eq_true_2, Z.eqb_refl by reflexivity; reflexivity.
Qed.

Lemma set_workflow_state_on_action_consistent_witness :
  set_workflow_state_on_action (fun _ => Some ex_wf) (ex_doc "Review") "WF" "approve"
  = ROk (ex_doc "Review").
Proof.
  apply (set_workflow_state_on_action_consistent (fun _ => Some ex_wf) (ex_doc "Review")
           ex_wf "WF" "approve" (mkWState "Review" 0 "" "")); try reflexivity.
  simpl; tauto.
Defined.

(** X9: an inconsistent document with an action other than
    update_after_submit, submit and cancel raises [KeyError]. *)
Theorem set_workflow_state_on_action_unknown_action
    (get_workflow_doc : string -> option Workflow) (doc : Doc) (wf : Workflow)
    (workflow_name action : string) :
  get_workflow_doc workflow_name = Some wf ->
  (forall s, In s (states wf) ->
     fields doc !! workflow_state_field wf <> Some (st_state s) \/
     docstatus doc <> doc_status s) ->
  ~ In action ["update_after_submit"; "submit"; "cancel"] ->
  set_workflow_state_on_action get_workflow_doc doc workflow_name action
  = RErr (KeyError action).
Proof.
  intros Hw Hs Ha; unfold set_workflow_state_on_action; rewrite Hw.
  replace (existsb _ (states wf)) with false.
  - unfold action_map.
    destruct (String.eqb_spec action "update_after_submit"); [subst; simpl in Ha; tauto|].
    destruct (String.eqb_spec action "submit"); [subst; simpl in Ha; tauto|].
    destruct (String.eqb_spec action "cancel"); [subst; simpl in Ha; tauto|].
    reflexivity.
  - symmetry; apply not_true_iff_false; intros E.
    apply existsb_exists in E as [s [Hin E]].
    apply andb_true_iff in E as [E1 E2].
    apply bool_decide_eq_true_1 in E1; apply Z.eqb_eq in E2.
    destruct (Hs s Hin); contradiction.
Qed.

Lemma set_workflow_state_on_action_unknown_action_witness :
  set_workflow_state_on_action (fun _ => Some ex_wf) (set_docstatus (ex_doc "Review") 1)
    "WF" "approve" = RErr (KeyError "approve").
Proof.
  apply (set_workflow_state_on_action_unknown_action (fun _ => Some ex_wf)
           (set_docstatus (ex_doc "Review") 1) ex_wf); try reflexivity.
  - intros s Hin; simpl in Hin.
    repeat (destruct Hin as [<-|Hin];
            [first [right; vm_compute; discriminate | left; vm_compute; discriminate]|]).
    contradiction.
  - simpl; intuition discriminate.
Defined.

(** X10: on success the document is either unchanged or has its state
    field, and nothing else, set to a state of the workflow whose
    docstatus is the one the action maps to; docstatus is never touched. *)
Theorem set_workflow_state_on_action_result
    (get_workflow_doc : string -> option Workflow) (doc d' : Doc) (wf : Workflow)
    (workflow_name action : string) :
  get_workflow_doc workflow_name = Some wf ->
  set_workflow_state_on_action get_workflow_doc doc workflow_name action = ROk d' ->
  d' = doc \/
  exists s ds, action_map action = Some ds /\ In s (states wf) /\ doc_status s = ds /\
               d' = doc_set doc (workflow_state_field wf) (st_state s).
Proof.
  intros Hw; unfold set_workflow_state_on_action; rewrite Hw.
  destruct (existsb _ (states wf)); [intros H; injection H as <-; left; reflexivity|].
  destruct (action_map action) as [ds|]; [|discriminate].
  destruct (List.find _ (states wf)) as [s|] eqn:F; intros H; injection H as <-;
    [right|left; reflexivity].
  apply find_some in F as [Hin F]; apply Z.eqb_eq in F.
  exists s, ds; auto.
Qed.

Lemma set_workflow_state_on_action_result_witness :
  let d := set_docstatus (ex_doc "Draft") 1 in
  let d' := doc_set d "workflow_state" "Cancelled" in
  set_workflow_state_on_action (fun _ => Some ex_wf) d "WF" "cancel" = ROk d' /\
  (d' = d \/
   exists s ds, action_map "cancel" = Some ds /\ In s (states ex_wf) /\ doc_status s = ds /\
                d' = doc_set d (workflow_state_field ex_wf) (st_state s)).
Proof.
  intros d d'; split; [vm_compute; reflexivity|].
  apply (set_workflow_state_on_action_result (fun _ => Some ex_wf) d d' ex_wf "WF" "cancel");
    [reflexivity | vm_compute; reflexivity].
Defined.

(** X11: outside the Administrator shortcut, [get_open_workflow_action]
    lists exactly the rows of the document at [state] that are not
    Completed, restricted to [user] when one is given. *)
Theorem get_open_workflow_action_members (rows : list WorkflowActionRow) (doc : Doc)
    (state user : string) (oa : OpenAction) :
  user <> "Administrator" ->
  In oa (get_open_workflow_action rows doc state user) <->
  exists r, In r rows /\ oa = open_action_of r /\
            ar_status (wa r) <> "Completed" /\ ar_workflow_state (wa r) = state /\
            ar_reference_doctype (wa r) = doctype doc /\ ar_reference_name (wa r) = name doc /\
            (user = "" \/ ar_user (wa r) = user).
Proof.
  intros Hu; unfold get_open_workflow_action, in_list; simpl.
  replace (truthy user && (String.eqb user "Administrator" || false)) with false
    by (destruct (String.eqb_spec user "Administrator"); [contradiction|];
        rewrite andb_false_r; reflexivity).
  rewrite in_map_iff; split.
  - intros [r [<- Hr]]; apply filter_In in Hr as [Hin Hr]; exists r.
    repeat rewrite andb_true_iff in Hr; destruct Hr as [[[[H1 H2] H3] H4] H5].
    apply negb_true_iff, String.eqb_neq in H1.
    apply String.eqb_eq in H2; apply String.eqb_eq in H3; apply String.eqb_eq in H4.
    repeat split; auto.
    unfold truthy in H5; destruct (String.eqb_spec user ""); [left; assumption|].
    simpl in H5; right; apply String.eqb_eq; exact H5.
  - intros [r [Hin [-> [H1 [H2 [H3 [H4 H5]]]]]]]; exists r; split; [reflexivity|].
    apply filter_In; split; [exact Hin|].
    apply String.eqb_neq in H1; rewrite H1, H2, H3, H4, !String.eqb_refl; simpl.
    unfold truthy; destruct (String.eqb_spec user ""); [reflexivity|].
    destruct H5 as [H5|H5]; [contradiction|]; rewrite H5, String.eqb_refl; reflexivity.
Qed.

Lemma get_open_workflow_action_members_witness :
  let r := mkWorkflowActionRow (ex_open_action "Review" "other@example.com")
             "Approve:Approved" in
  In (open_action_of r) (get_open_workflow_action [r] (ex_doc "Review") "Review" "") <->
  exists r', In r' [r] /\ open_action_of r = open_action_of r' /\
             ar_status (wa r') <> "Completed" /\ ar_workflow_state (wa r') = "Review" /\
             ar_reference_doctype (wa r') = doctype (ex_doc "Review") /\
             ar_reference_name (wa r') = name (ex_doc "Review") /\
             ("" = "" \/ ar_user (wa r') = "").
Proof.
  intros r; apply get_open_workflow_action_members; discriminate.
Defined.

Lemma py_split_char_free (c : Ascii.ascii) (s : string) :
  char_free c s = true -> py_split c s = [s].
Proof.
  induction s as [|x s IH]; simpl; [reflexivity|].
  intros H; apply andb_true_iff in H as [Hx Hs]; apply negb_true_iff in Hx.
  rewrite Hx, (IH Hs); reflexivity.
Qed.

Lemma py_split_app (c : Ascii.ascii) (s1 s2 : string) :
  char_free c s1 = true -> py_split c (s1 ++ String c s2) = s1 :: py_split c s2.
Proof.
  induction s1 as [|x s1 IH]; simpl; intros H.
  - rewrite Ascii.eqb_refl; reflexivity.
  - apply andb_true_iff in H as [Hx Hs]; apply negb_true_iff in Hx.
    rewrite Hx, (IH Hs); reflexivity.
Qed.

Lemma string_app_assoc (s1 s2 s3 : string) : (s1 ++ s2) ++ s3 = s1 ++ s2 ++ s3.
Proof.
  induction s1 as [|x s1 IH]; [reflexivity|].
  change (String x ((s1 ++ s2) ++ s3) = String x (s1 ++ s2 ++ s3)); rewrite IH; reflexivity.
Qed.

Lemma char_free_app (c : Ascii.ascii) (s1 s2 : string) :
  char_free c (s1 ++ s2) = char_free c s1 && char_free c s2.
Proof.
  induction s1 as [|x s1 IH]; simpl; [reflexivity|].
  rewrite IH, andb_assoc; reflexivity.
Qed.

Lemma distinct_in (x : string) (l : list string) : In x (distinct l) <-> In x l.
Proof.
  induction l as [|y l IH]; simpl; [tauto|].
  rewrite filter_In, IH; split.
  - intros [H|[H _]]; auto.
  - intros [H|H]; [left; exact H|].
    destruct (String.eqb_spec y x); [left; assumption|].
    right; split; [exact H | reflexivity].
Qed.

Lemma list_filter_none {A} (f : A -> bool) (l : list A) :
  (forall x, In x l -> f x = false) -> List.filter f l = [].
Proof.
  induction l as [|y l IH]; simpl; intros H; [reflexivity|].
  rewrite (H y (or_introl eq_refl)); apply IH; auto.
Qed.

Lemma distinct_const (x : string) (l : list string) :
  l <> [] -> (forall y, In y l -> y = x) -> distinct l = [x].
Proof.
  destruct l as [|y l]; [contradiction|]; intros _ H; simpl.
  rewrite (H y (or_introl eq_refl)); f_equal.
  apply list_filter_none; intros z Hz.
  apply (proj1 (distinct_in z l)) in Hz; rewrite (H z (or_intror Hz)), String.eqb_refl; reflexivity.
Qed.

Lemma parse_action_error (i : string) (e : PyErr) :
  parse_action i = RErr e -> e = Known IndexError.
Proof.
  unfold parse_action; destruct (py_split ":"%char i) as [|a [|t r]]; congruence.
Qed.

Lemma join_actions_split (l : list (string * string)) :
  Forall (fun p => char_free ";"%char (fst p) = true /\ char_free ";"%char (snd p) = true) l ->
  l <> [] ->
  py_split ";"%char (join_actions l) = map (fun p => fst p ++ ":" ++ snd p) l.
Proof.
  induction l as [|[a t] l IH]; intros Hf Hne; [contradiction|].
  inversion Hf as [|? ? [Ha Ht] Hrest]; subst; simpl in Ha, Ht.
  destruct l as [|p l].
  - simpl; apply py_split_char_free; rewrite !char_free_app, Ha, Ht; reflexivity.
  - change (join_actions ((a, t) :: p :: l))
      with (a ++ ":" ++ t ++ ";" ++ join_actions (p :: l)).
    replace (a ++ ":" ++ t ++ ";" ++ join_actions (p :: l))
      with ((a ++ ":" ++ t) ++ String ";"%char (join_actions (p :: l)))
      by (rewrite string_app_assoc; reflexivity).
    rewrite py_split_app.
    + rewrite IH by (auto || discriminate); reflexivity.
    + rewrite !char_free_app, Ha, Ht; reflexivity.
Qed.

Lemma parse_actions_encoded (l : list (string * string)) :
  Forall (fun p => char_free ":"%char (fst p) = true /\ char_free ":"%char (snd p) = true) l ->
  parse_actions (map (fun p => fst p ++ ":" ++ snd p) l) = ROk l.
Proof.
  induction l as [|[a t] l IH]; intros Hf; [reflexivity|].
  inversion Hf as [|? ? [Ha Ht] Hrest]; subst; simpl in Ha, Ht |- *.
  unfold parse_action; change (a ++ ":" ++ t) with (a ++ String ":"%char t).
  rewrite py_split_app by exact Ha; rewrite py_split_char_free by exact Ht.
  rewrite IH by exact Hrest; reflexivity.
Qed.

Lemma parse_actions_index_error (parts : list string) (p : string) :
  In p parts -> char_free ":"%char p = true -> parse_actions parts = RErr (Known IndexError).
Proof.
  induction parts as [|q parts IH]; simpl; [contradiction|]; intros Hin Hp.
  destruct (parse_action q) as [x|e] eqn:Hq.
  - destruct Hin as [<-|Hin].
    + unfold parse_action in Hq; rewrite py_split_char_free in Hq by exact Hp; discriminate.
    + rewrite (IH Hin Hp); reflexivity.
  - rewrite (parse_action_error q e Hq); reflexivity.
Qed.

Lemma get_common_transition_actions_single (rows : list WorkflowActionRow)
    (docnames : list string) (doctype session_user s : string) :
  (exists r, In r rows /\ String.eqb (ar_reference_doctype (wa r)) doctype
               && in_list (ar_reference_name (wa r)) docnames
               && String.eqb (ar_user (wa r)) session_user
               && String.eqb (ar_status (wa r)) "Open" = true) ->
  (forall r, In r rows -> String.eqb (ar_reference_doctype (wa r)) doctype
               && in_list (ar_reference_name (wa r)) docnames
               && String.eqb (ar_user (wa r)) session_user
               && String.eqb (ar_status (wa r)) "Open" = true -> wa_actions r = s) ->
  get_common_transition_actions rows docnames doctype session_user
  = parse_actions (py_split ";"%char s).
Proof.
  intros [r [Hin Hr]] Hall; unfold get_common_transition_actions.
  rewrite (distinct_const s); [reflexivity| |].
  - intros H; apply map_eq_nil in H.
    assert (Hf : In r (List.filter (fun r =>
        String.eqb (ar_reference_doctype (wa r)) doctype
        && in_list (ar_reference_name (wa r)) docnames
        && String.eqb (ar_user (wa r)) session_user
        && String.eqb (ar_status (wa r)) "Open") rows)) by (apply filter_In; auto).
    rewrite H in Hf; contradiction.
  - intros y Hy; apply in_map_iff in Hy as [r' [<- Hr']].
    apply filter_In in Hr' as [Hin' Hr']; exact (Hall r' Hin' Hr').
Qed.

(** X12: when all the user's Open rows for the documents carry the same
    [actions] value, written as "action:transition" pairs joined by ';'
    with neither separator inside a name, [get_common_transition_actions]
    returns exactly those pairs, in order. *)
Theorem get_common_transition_actions_round_trip (rows : list WorkflowActionRow)
    (docnames : list string) (doctype session_user : string)
    (l : list (string * string)) :
  l <> [] ->
  Forall (fun p => char_free ";"%char (fst p) = true /\ char_free ";"%char (snd p) = true /\
                   char_free ":"%char (fst p) = true /\ char_free ":"%char (snd p) = true) l ->
  (exists r, In r rows /\ String.eqb (ar_reference_doctype (wa r)) doctype
               && in_list (ar_reference_name (wa r)) docnames
               && String.eqb (ar_user (wa r)) session_user
               && String.eqb (ar_status (wa r)) "Open" = true) ->
  (forall r, In r rows -> String.eqb (ar_reference_doctype (wa r)) doctype
               && in_list (ar_reference_name (wa r)) docnames
               && String.eqb (ar_user (wa r)) session_user
               && String.eqb (ar_status (wa r)) "Open" = true ->
             wa_actions r = join_actions l) ->
  get_common_transition_actions rows docnames doctype session_user = ROk l.
Proof.
  intros Hne Hf Hex Hall.
  rewrite (get_common_transition_actions_single rows docnames doctype session_user
             (join_actions l) Hex Hall).
  rewrite join_actions_split; [apply parse_actions_encoded| |exact Hne];
    eapply Forall_impl; try exact Hf; simpl; tauto.
Qed.

Lemma get_common_transition_actions_round_trip_witness :
  get_common_transition_actions
    [mkWorkflowActionRow (ex_open_action "Review" "reviewer@example.com")
       "Approve:Approved;Reject:Draft"] ["TD-0001"] "ToDo" "reviewer@example.com"
  = ROk [("Approve", "Approved"); ("Reject", "Draft")].
Proof.
  apply get_common_transition_actions_round_trip.
  - discriminate.
  - repeat constructor.
  - eexists; split; [left; reflexivity | reflexivity].
  - intros r [<-|[]] _; reflexivity.
Defined.

(** X13: when the user's Open rows for the documents carry two different
    [actions] values, there is no common action: the result is empty. *)
Theorem get_common_transition_actions_disagree (rows : list WorkflowActionRow)
    (docnames : list string) (doctype session_user : string)
    (r1 r2 : WorkflowActionRow) :
  In r1 rows -> In r2 rows ->
  String.eqb (ar_reference_doctype (wa r1)) doctype
    && in_list (ar_reference_name (wa r1)) docnames
    && String.eqb (ar_user (wa r1)) session_user
    && String.eqb (ar_status (wa r1)) "Open" = true ->
  String.eqb (ar_reference_doctype (wa r2)) doctype
    && in_list (ar_reference_name (wa r2)) docnames
    && String.eqb (ar_user (wa r2)) session_user
    && String.eqb (ar_status (wa r2)) "Open" = true ->
  wa_actions r1 <> wa_actions r2 ->
  get_common_transition_actions rows docnames doctype session_user = ROk [].
Proof.
  intros H1 H2 M1 M2 Hne; unfold get_common_transition_actions.
  match goal with |- match distinct ?l with _ => _ end = _ =>
    assert (I1 : In (wa_actions r1) (distinct l));
    [|assert (I2 : In (wa_actions r2) (distinct l))];
    [apply distinct_in, in_map_iff; exists r1; split; [reflexivity|]; apply filter_In; auto
    |apply distinct_in, in_map_iff; exists r2; split; [reflexivity|]; apply filter_In; auto
    |destruct (distinct l) as [|a [|b t]]; [contradiction|exfalso|reflexivity]]
  end.
  destruct I1 as [E1|[]]; destruct I2 as [E2|[]]; congruence.
Qed.

Lemma get_common_transition_actions_disagree_witness :
  get_common_transition_actions
    [mkWorkflowActionRow (ex_open_action "Review" "reviewer@example.com")
       "Approve:Approved";
     mkWorkflowActionRow (mkAction "ToDo" "TD-0002" "Draft" "reviewer@example.com" "Open"
                            "Normal" "") "Submit for Review:Review"]
    ["TD-0001"; "TD-0002"] "ToDo" "reviewer@example.com" = ROk [].
Proof.
  eapply get_common_transition_actions_disagree;
    [left; reflexivity | right; left; reflexivity | reflexivity | reflexivity |].
  simpl; discriminate.
Defined.

(** X14: when the common [actions] value has a ';'-separated part without
    ':' (an empty value included), [get_common_transition_actions] raises
    [IndexError]; the [except WorkflowStateError] does not catch it. *)
Theorem get_common_transition_actions_malformed (rows : list WorkflowActionRow)
    (docnames : list string) (doctype session_user s p : string) :
  (exists r, In r rows /\ String.eqb (ar_reference_doctype (wa r)) doctype
               && in_list (ar_reference_name (wa r)) docnames
               && String.eqb (ar_user (wa r)) session_user
               && String.eqb (ar_status (wa r)) "Open" = true) ->
  (forall r, In r rows -> String.eqb (ar_reference_doctype (wa r)) doctype
               && in_list (ar_reference_name (wa r)) docnames
               && String.eqb (ar_user (wa r)) session_user
               && String.eqb (ar_status (wa r)) "Open" = true -> wa_actions r = s) ->
  In p (py_split ";"%char s) -> char_free ":"%char p = true ->
  get_common_transition_actions rows docnames doctype session_user
  = RErr (Known IndexError).
Proof.
  intros Hex Hall Hp Hc.
  rewrite (get_common_transition_actions_single rows docnames doctype session_user s Hex Hall).
  exact (parse_actions_index_error _ p Hp Hc).
Qed.

Lemma get_common_transition_actions_malformed_witness :
  get_common_transition_actions
    [mkWorkflowActionRow (ex_open_action "Review" "reviewer@example.com") ""]
    ["TD-0001"] "ToDo" "reviewer@example.com" = RErr (Known IndexError).
Proof.
  apply (get_common_transition_actions_malformed _ _ _ _ "" "").
  - eexists; split; [left; reflexivity | reflexivity].
  - intros r [<-|[]] _; reflexivity.
  - left; reflexivity.
  - reflexivity.
Defined.

(** X15: [get_workflow_name] memoizes per doctype: a second call answers
    from the cache, without the database, with the first answer, where a
    first [None] has become the stored [''], and leaves the cache as it
    is; the first call changes the cache only at that doctype. *)
Theorem get_workflow_name_memo (active1 active2 : string -> option string)
    (cache : gmap string string) (doctype : string) :
  let r := get_workflow_name active1 cache doctype in
  get_workflow_name active2 (snd r) doctype
    = (Some (match fst r with Some n => n | None => "" end), snd r) /\
  delete doctype (snd r) = delete doctype cache.
Proof.
  unfold get_workflow_name; destruct (cache !! doctype) as [v|] eqn:E; simpl.
  - rewrite E; split; reflexivity.
  - rewrite lookup_insert_eq, delete_insert_eq; split; reflexivity.
Qed.

(** X16: [get_workflow_field_value] memoizes only values that are not
    None: after a call that found a value, the next call returns it from
    the cache; after one that found None, the next call asks the database
    again and stores its answer. *)
Theorem get_workflow_field_value_memo (db1 db2 : string -> string -> option string)
    (cache : gmap (string * string) (option string)) (workflow_name field : string) :
  let r := get_workflow_field_value db1 cache workflow_name field in
  get_workflow_field_value db2 (snd r) workflow_name field
    = match fst r with
      | Some v => (Some v, snd r)
      | None => (db2 workflow_name field,
                 <[("workflow_" ++ workflow_name, field) := db2 workflow_name field]> (snd r))
      end.
Proof.
  unfold get_workflow_field_value.
  destruct (cache !! ("workflow_" ++ workflow_name, field)) as [[v|]|] eqn:E; simpl;
    try (rewrite E; reflexivity);
    rewrite lookup_insert_eq; destruct (db1 workflow_name field); reflexivity.
Qed.



(** X18: only the first state with docstatus 2 matters to
    [can_cancel_document]'s loops: cancelling is allowed exactly when no
    transition leads into that state, whatever the later states. *)
Theorem can_cancel_states_first_cancelled (sts pre post : list WState) (s : WState)
    (ts : list Transition) :
  sts = (pre ++ s :: post)%list ->
  Forall (fun x => doc_status x <> 2%Z) pre ->
  doc_status s = 2%Z ->
  can_cancel_states sts ts
  = negb (existsb (fun t => String.eqb (t_next_state t) (st_state s)) ts).
Proof.
  intros -> Hpre Hs; induction Hpre as [|x pre Hx Hpre IH]; simpl.
  - rewrite Hs; reflexivity.
  - apply Z.eqb_neq in Hx; rewrite Hx; exact IH.
Qed.

Lemma can_cancel_states_first_cancelled_witness :
  can_cancel_states ex_states [ex_submit_for_review; ex_approve; ex_cancel_from_review]
  = negb (existsb (fun t => String.eqb (t_next_state t) "Cancelled")
            [ex_submit_for_review; ex_approve; ex_cancel_from_review]).
Proof.
  apply (can_cancel_states_first_cancelled ex_states
           [mkWState "Draft" 0 "" ""; mkWState "Review" 0 "" ""; mkWState "Approved" 1 "" ""]
           [] (mkWState "Cancelled" 2 "" "")); [reflexivity | | reflexivity].
  repeat constructor; discriminate.
Defined.

(** X19: a workflow without a state of docstatus 2 never forbids
    cancelling. *)
Theorem can_cancel_states_no_cancelled (sts : list WState) (ts : list Transition) :
  (forall s, In s sts -> doc_status s <> 2%Z) -> can_cancel_states sts ts = true.
Proof.
  induction sts as [|s sts IH]; intros H; simpl; [reflexivity|].
  destruct (Z.eqb_spec (doc_status s) 2) as [E|E].
  - exfalso; exact (H s (or_introl eq_refl) E).
  - apply IH; intros s' Hs'; apply H; right; exact Hs'.
Qed.

Lemma can_cancel_states_no_cancelled_witness :
  can_cancel_states (List.firstn 3 ex_states) [ex_submit_for_review; ex_approve] = true.
Proof.
  apply can_cancel_states_no_cancelled; simpl.
  intros s H; repeat (destruct H as [<-|H]; [discriminate|]); contradiction.
Defined.

(** X20: the open actions of a document at a state split between a user
    and the others: those [get_open_workflow_action] lists for the user,
    plus those [other_user_open_action_count] counts, are all those it
    lists without a user. *)
Theorem open_actions_split_by_user (rows : list WorkflowActionRow) (doc : Doc)
    (state user : string) :
  truthy user = true -> user <> "Administrator" ->
  length (get_open_workflow_action rows doc state "")
  = (length (get_open_workflow_action rows doc state user)
     + other_user_open_action_count (map wa rows) doc state user)%nat.
Proof.
  intros Ht Ha; unfold get_open_workflow_action, other_user_open_action_count, in_list.
  rewrite Ht; simpl.
  destruct (String.eqb_spec user "Administrator") as [E|_]; [contradiction|]; simpl.
  rewrite !length_map.
  induction rows as [|r rows IH]; [reflexivity|]; simpl.
  repeat match goal with |- context [String.eqb ?x ?y] => destruct (String.eqb x y) end;
    simpl; lia.
Qed.

Lemma open_actions_split_by_user_witness :
  let rows := [mkWorkflowActionRow (ex_open_action "Review" "reviewer@example.com")
                 "Approve:Approved";
               mkWorkflowActionRow (ex_open_action "Review" "other@example.com")
                 "Approve:Approved"] in
  length (get_open_workflow_action rows (ex_doc "Review") "Review" "")
  = (length (get_open_workflow_action rows (ex_doc "Review") "Review" "reviewer@example.com")
     + other_user_open_action_count (map wa rows) (ex_doc "Review") "Review"
         "reviewer@example.com")%nat.
Proof.
  intros rows; apply open_actions_split_by_user; [reflexivity | discriminate].
Defined.
